(** * invoice_extractor: a shallow embedding of the extraction pipeline

    The development follows the Python package [invoice_extractor]
    ([config.py], [models.py], [validators.py], [processor.py], [cli.py]).
    Each Python module becomes a Rocq [Module]; the Python primitives the
    code relies on (truthiness, [str.lower], [in], slicing, binary64
    arithmetic and fixed-point formatting) are collected in [Py]. *)

From Stdlib Require Import ZArith String Ascii.
From Stdlib Require Import Floats.SpecFloat.
From stdpp Require Import base option strings gmap list pretty.

Local Open Scope Z_scope.
Local Open Scope string_scope.

(** ** Python primitives *)

Module Py.

(** An exception object: its class name and what [str(e)] returns. These
    are the instances of [Exception], the ones an [except Exception]
    clause intercepts; [SystemExit] is kept apart (see [Cli.stop]). *)
Record exn := Exn { exn_class : string; exn_str : string }.

Definition ValueError (msg : string) : exn := Exn "ValueError" msg.
Definition TypeError (msg : string) : exn := Exn "TypeError" msg.
Definition FileNotFoundError (msg : string) : exn := Exn "FileNotFoundError" msg.

(** A computation that either raises or returns. *)
Definition result (A : Type) : Type := exn + A.

Definition raise {A} (e : exn) : result A := inl e.
Definition ret {A} (a : A) : result A := inr a.
Definition bind {A B} (m : result A) (k : A → result B) : result B :=
  match m with
  | inl e => inl e
  | inr a => k a
  end.

(** [try: body except Exception as e: handler(e)] *)
Definition try_except {A} (body : result A) (handler : exn → result A) : result A :=
  match body with
  | inl e => handler e
  | inr a => inr a
  end.

Definition raises {A} (m : result A) : Prop := ∃ e, m = inl e.
Definition returns {A} (m : result A) : Prop := ∃ a, m = inr a.

(** *** Strings

    A Python [str] is modelled by [string]; one [ascii] stands for one
    character (code points below 256). *)

(** [bool(s)] for [s : Optional[str]]: [None] and the empty string are falsy. *)
Definition truthy (o : option string) : bool :=
  match o with
  | Some s => negb (String.eqb s EmptyString)
  | None => false
  end.

(** A credential counts as configured when it is present and non-empty. *)
Definition configured (o : option string) : Prop :=
  ∃ k, o = Some k ∧ k ≠ EmptyString.

(** [a or b] on [Optional[str]] operands: the first operand when it is
    truthy, the second one otherwise. *)
Definition or_ (a b : option string) : option string :=
  if truthy a then a else b.

(** [c.lower()] for one character of the Latin-1 range: [A-Z] and the
    accented capitals [U+00C0..U+00DE] (but not the multiplication sign
    [U+00D7]) move up by 32. *)
Definition lower_char (c : ascii) : ascii :=
  let n := N_of_ascii c in
  if ((65 <=? n) && (n <=? 90))%N
     || ((192 <=? n) && (n <=? 222) && negb (n =? 215))%N
  then ascii_of_N (n + 32)
  else c.

(** [s.lower()] *)
Fixpoint lower (s : string) : string :=
  match s with
  | EmptyString => EmptyString
  | String c s' => String (lower_char c) (lower s')
  end.

(** [sub in s] *)
Fixpoint contains (sub s : string) : bool :=
  String.prefix sub s ||
  match s with
  | EmptyString => false
  | String _ s' => contains sub s'
  end.

(** [s[:n]] *)
Fixpoint slice_to (n : nat) (s : string) : string :=
  match n, s with
  | S n', String c s' => String c (slice_to n' s')
  | _, _ => EmptyString
  end.

(** [s * n] *)
Fixpoint repeat_str (s : string) (n : nat) : string :=
  match n with
  | O => EmptyString
  | S n' => s +:+ repeat_str s n'
  end.

(** *** Dynamically typed values

    The values the backend may hand over where the code expects text.
    Only [str] supports slicing. *)
Inductive pyobj :=
| PyNone
| PyStr (s : string)
| PyInt (n : Z).

Definition type_name (o : pyobj) : string :=
  match o with
  | PyNone => "NoneType"
  | PyStr _ => "str"
  | PyInt _ => "int"
  end.

(** [o[:n]] followed by its rendering inside an f-string. *)
Definition slice_fmt (n : nat) (o : pyobj) : result string :=
  match o with
  | PyStr s => ret (slice_to n s)
  | _ => raise (TypeError ("'" +:+ type_name o +:+ "' object is not subscriptable"))
  end.

(** *** Floats

    A Python [float] is an IEEE 754 binary64 number: [spec_float] at
    precision 53 and maximal exponent 1024. *)
Definition float : Type := spec_float.
Definition prec : Z := 53.
Definition emax : Z := 1024.

(** [float(z)] for an [int], rounded to nearest even. *)
Definition float_of_int (z : Z) : float := binary_normalize prec emax z 0 false.

(** [x / y] and [x - y] on floats. *)
Definition fdiv (x y : float) : float := SFdiv prec emax x y.
Definition fsub (x y : float) : float := SFsub prec emax x y.

(** A decimal literal [n.d] with one fractional digit, read as the
    binary64 number nearest to [(10 n + d) / 10]. *)
Definition float_lit1 (n d : Z) : float :=
  fdiv (float_of_int (10 * n + d)) (float_of_int 10).

(** [num / den] rounded to the nearest integer, ties to even
    ([den] positive). *)
Definition round_half_even (num den : Z) : Z :=
  let q := num / den in
  let r := num mod den in
  match 2 * r ?= den with
  | Lt => q
  | Gt => q + 1
  | Eq => if Z.even q then q else q + 1
  end.

Definition sign_str (s : bool) : string := if s then "-" else EmptyString.

(** The [p] fractional digits of a scaled value, left-padded with zeros. *)
Definition frac_str (p : nat) (f : Z) : string :=
  let d := pretty f in
  repeat_str "0" (p - String.length d) +:+ d.

Definition fixed_str (p : nat) (t : Z) : string :=
  let scale := 10 ^ Z.of_nat p in
  match p with
  | O => pretty t
  | S _ => pretty (t / scale) +:+ "." +:+ frac_str p (t mod scale)
  end.

(** [format(x, ".pf")]: the exact binary value rounded to [p] decimals,
    ties to even. *)
Definition format_f (p : nat) (x : float) : string :=
  match x with
  | S754_nan => "nan"
  | S754_infinity s => sign_str s +:+ "inf"
  | S754_zero s => sign_str s +:+ fixed_str p 0
  | S754_finite s m e =>
      let scale := 10 ^ Z.of_nat p in
      let t := if (0 <=? e)%Z
               then Z.pos m * 2 ^ e * scale
               else round_half_even (Z.pos m * scale) (2 ^ (- e)) in
      sign_str s +:+ fixed_str p t
  end.

(** [str(z)] for an [int]. *)
Definition str_of_int (z : Z) : string := pretty z.

Definition AttributeError (msg : string) : exn := Exn "AttributeError" msg.

(** *** [repr] of a string *)

Definition dquote : ascii := ascii_of_N 34.
Definition squote : ascii := ascii_of_N 39.
Definition backslash : ascii := ascii_of_N 92.

Fixpoint has_char (c : ascii) (s : string) : bool :=
  match s with
  | EmptyString => false
  | String a s' => Ascii.eqb a c || has_char c s'
  end.

(** [c.isprintable()] on the Latin-1 range: the ASCII range from the space
    to the tilde, and [U+00A1..U+00FF] without the soft hyphen. *)
Definition printable (c : ascii) : bool :=
  let n := N_of_ascii c in
  ((32 <=? n) && (n <=? 126))%N || ((161 <=? n) && negb (n =? 173))%N.

Definition hex_digit (n : N) : ascii :=
  if (n <? 10)%N then ascii_of_N (48 + n) else ascii_of_N (87 + n).

(** One character inside [repr(s)], [q] being the enclosing quote. *)
Definition repr_char (q c : ascii) : string :=
  let n := N_of_ascii c in
  if Ascii.eqb c backslash then String backslash (String backslash EmptyString)
  else if Ascii.eqb c q then String backslash (String q EmptyString)
  else if (n =? 10)%N then String backslash "n"
  else if (n =? 13)%N then String backslash "r"
  else if (n =? 9)%N then String backslash "t"
  else if printable c then String c EmptyString
  else String backslash
         (String "x" (String (hex_digit (n / 16)) (String (hex_digit (n mod 16)) EmptyString))).

Fixpoint repr_body (q : ascii) (s : string) : string :=
  match s with
  | EmptyString => EmptyString
  | String c s' => repr_char q c +:+ repr_body q s'
  end.

(** [repr(s)]: single quotes, unless the string holds a single quote and
    no double quote. *)
Definition repr (s : string) : string :=
  let q := if has_char squote s && negb (has_char dquote s) then dquote else squote in
  String q (repr_body q s +:+ String q EmptyString).

(** *** [pathlib] on a POSIX host *)

Fixpoint split_on (sep : ascii) (s : string) : list string :=
  match s with
  | EmptyString => [EmptyString]
  | String c s' =>
      if Ascii.eqb c sep then EmptyString :: split_on sep s'
      else match split_on sep s' with
           | x :: xs => String c x :: xs
           | [] => [String c EmptyString]
           end
  end.

Fixpoint leading (c : ascii) (s : string) : nat :=
  match s with
  | String a s' => if Ascii.eqb a c then S (leading c s') else O
  | EmptyString => O
  end.

(** [str(Path(s))]: empty and [.] components are dropped, and with them
    repeated and trailing slashes; the root is kept ([//] when the path
    starts with exactly two slashes); nothing left is [.]. *)
Definition path_str (s : string) : string :=
  let root := match leading "/" s with
              | O => EmptyString
              | 2%nat => "//"
              | _ => "/"
              end in
  let parts := filter (λ x, x ≠ EmptyString ∧ x ≠ ".") (split_on "/" s) in
  let body := String.concat "/" parts in
  if String.eqb (root +:+ body) EmptyString then "." else root +:+ body.

End Py.

Import Py.

#[global] Instance result_ret : MRet Py.result := @Py.ret.
#[global] Instance result_bind : MBind Py.result := λ A B k m, Py.bind m k.

(** ** models.py *)

Module Models.

(** [decimal.Decimal]: sign, coefficient and exponent. *)
Record Decimal := { dec_sign : bool; dec_coeff : N; dec_exp : Z }.

(** [datetime.date], imported as [_date]. *)
Record _date := { year : Z; month : Z; day : Z }.

Record Address := {
  street : option string;
  city : option string;
  state : option string;
  zip_code : option string;
  country : option string }.

Record Entity := {
  name : option string;
  address : option Address;
  tax_id : option string;
  email : option string;
  phone : option string }.

Record LineItem := {
  description : option string;
  quantity : option Decimal;
  unit_price : option Decimal;
  total : option Decimal;
  tax_rate : option Decimal }.

(** The field [total] of [Totals] is [totals_total] here, [total] being
    taken by [LineItem]. *)
Record Totals := {
  subtotal : option Decimal;
  tax : option Decimal;
  totals_total : option Decimal;
  currency : string }.

Record InvoiceData := {
  invoice_number : option string;
  date : option _date;
  due_date : option _date;
  vendor : option Entity;
  customer : option Entity;
  totals : option Totals;
  line_items : list LineItem;
  notes : option string;
  payment_terms : option string }.

(** [InvoiceData(invoice_number=n, notes=t)]: every other field takes the
    default of its declaration. *)
Definition InvoiceData_new (n t : option string) : InvoiceData :=
  {| invoice_number := n; date := None; due_date := None; vendor := None;
     customer := None; totals := None; line_items := []; notes := t;
     payment_terms := None |}.

Record ProcessingResult := {
  success : bool;
  invoice_data : option InvoiceData;
  error_message : option string;
  processing_time : option float;
  confidence_score : option float }.

End Models.

Import Models.

(** ** config.py *)

Module Config.

Record Settings := {
  openai_api_key : option string;
  openai_model : string;
  gemini_api_key : option string;
  gemini_model : string;
  anthropic_api_key : option string;
  anthropic_model : string;
  supported_formats : list string;
  max_file_size_mb : Z }.

(** The field defaults of the class, with the three keys as read from the
    process environment. *)
Definition Settings_new (openai gemini anthropic : option string) : Settings :=
  {| openai_api_key := openai; openai_model := "gpt-4o";
     gemini_api_key := gemini; gemini_model := "gemini-2.0-flash-exp";
     anthropic_api_key := anthropic; anthropic_model := "claude-3-5-sonnet-20241022";
     supported_formats := ["pdf"; "png"; "jpg"; "jpeg"];
     max_file_size_mb := 10 |}.

Definition has_ai_provider (self : Settings) : bool :=
  truthy (or_ (or_ (openai_api_key self) (gemini_api_key self)) (anthropic_api_key self)).

(** The value of an [Optional[str]] attribute on a branch where it is
    truthy, hence a [str]. *)
Definition str_value (o : option string) : string := default EmptyString o.

Definition get_preferred_model (self : Settings) : result (string * string) :=
  if truthy (openai_api_key self) then
    mret (openai_model self, str_value (openai_api_key self))
  else if truthy (gemini_api_key self) then
    mret (gemini_model self, str_value (gemini_api_key self))
  else if truthy (anthropic_api_key self) then
    mret (anthropic_model self, str_value (anthropic_api_key self))
  else
    raise (ValueError "No AI provider configured").

End Config.

(** ** The host: process environment, file system, backend and clock *)

Module Host.

(** What the file system holds at a path: the byte length, and what
    [magic.from_file(path, mime=True)] makes of the content. *)
Record File := { file_size : N; file_mime : result string }.

(** The keyword arguments of one [zerox] call. *)
Record ZeroxCall := {
  zx_file_path : string;
  zx_model : string;
  zx_cleanup : bool;
  zx_custom_system_prompt : string;
  zx_maintain_format : bool;
  zx_temperature : float }.

(** What [zerox] returned, as far as the caller inspects it: [bool(r)],
    the [content] attribute when [hasattr(r, 'content')], and [str(r)]. *)
Record ZeroxOutput := {
  out_truthy : bool;
  out_content : option pyobj;
  out_str : string }.

(** Why [os.stat] fails on a path it does not resolve. *)
Inductive stat_failure := ENOENT | ENOTDIR | ELOOP | EACCES | ENAMETOOLONG | ENULL.

(** The exception of a failed [os.stat(path)] or [open(path)]: a subclass
    of [OSError] whose text ends with [repr(path)], or the [ValueError] of
    a path that holds a null character. *)
Definition os_error (why : stat_failure) (path : string) : exn :=
  match why with
  | ENOENT => FileNotFoundError ("[Errno 2] No such file or directory: " +:+ repr path)
  | ENOTDIR => Exn "NotADirectoryError" ("[Errno 20] Not a directory: " +:+ repr path)
  | ELOOP => Exn "OSError" ("[Errno 40] Too many levels of symbolic links: " +:+ repr path)
  | EACCES => Exn "PermissionError" ("[Errno 13] Permission denied: " +:+ repr path)
  | ENAMETOOLONG => Exn "OSError" ("[Errno 36] File name too long: " +:+ repr path)
  | ENULL => ValueError "embedded null byte"
  end.

(** [environ] is [os.environ]. [files] tells what [os.stat] finds at a path
    taken as it stands (a regular file or a directory), and [stat_err] why
    it fails where it finds nothing. [backend] is [pyzerox.zerox]: it reads
    the environment and the file system, answers or raises, and leaves an
    environment and a file system behind (temporary renderings, cleaned up
    or not). [clock] holds the successive readings of [time.time()],
    [ticks] of which are consumed. [with_suffix] is
    [str(Path(p).with_suffix(s))]. [open_w] tells whether [open(p, 'w')]
    goes through, [write_w] whether [json.dump] into the opened file
    does. *)
Record World := {
  environ : gmap string string;
  files : string → option File;
  stat_err : string → stat_failure;
  backend : gmap string string → (string → option File) → ZeroxCall
            → result ZeroxOutput * gmap string string * (string → option File);
  clock : nat → float;
  ticks : nat;
  with_suffix : string → string → result string;
  open_w : string → result unit;
  write_w : string → result unit }.

Definition set_environ (w : World) (k v : string) : World :=
  {| environ := <[k := v]> (environ w); files := files w; stat_err := stat_err w;
     backend := backend w; clock := clock w; ticks := ticks w;
     with_suffix := with_suffix w; open_w := open_w w; write_w := write_w w |}.

(** [time.time()]: the next clock reading. *)
Definition time_time (w : World) : float * World :=
  (clock w (ticks w),
   {| environ := environ w; files := files w; stat_err := stat_err w;
      backend := backend w; clock := clock w; ticks := S (ticks w);
      with_suffix := with_suffix w; open_w := open_w w; write_w := write_w w |}).

Definition set_files (w : World) (fs : string → option File) : World :=
  {| environ := environ w; files := fs; stat_err := stat_err w;
     backend := backend w; clock := clock w; ticks := ticks w;
     with_suffix := with_suffix w; open_w := open_w w; write_w := write_w w |}.

(** What [zerox] answers to a call on the present file system. *)
Definition zerox (w : World) (env : gmap string string) (c : ZeroxCall)
  : result ZeroxOutput :=
  (backend w env (files w) c).1.1.

(** The host once [zerox] has handled a call made under the present
    environment. *)
Definition after_zerox (w : World) (c : ZeroxCall) : World :=
  {| environ := (backend w (environ w) (files w) c).1.2;
     files := (backend w (environ w) (files w) c).2;
     stat_err := stat_err w; backend := backend w; clock := clock w; ticks := ticks w;
     with_suffix := with_suffix w; open_w := open_w w; write_w := write_w w |}.

(** [os.access(path, os.R_OK)] for a path that [os.stat] resolves: the
    file is readable unless opening it is refused. *)
Definition access_ok (f : File) : bool :=
  match file_mime f with
  | inl e => negb (String.eqb (exn_class e) "PermissionError")
  | inr _ => true
  end.

(** [Path(path).exists()]. The path is looked up in its normal form
    [str(Path(path))]; a path that [os.stat] resolves as it stands is
    resolved in its normal form too. The errors [ENOENT], [ENOTDIR] and
    [ELOOP] and a null character mean [False]; any other error is
    raised. *)
Definition path_exists (w : World) (path : string) : result bool :=
  match files w path with
  | Some _ => mret true
  | None =>
      match files w (path_str path) with
      | Some _ => mret true
      | None =>
          match stat_err w (path_str path) with
          | ENOENT | ENOTDIR | ELOOP | ENULL => mret false
          | why => raise (os_error why (path_str path))
          end
      end
  end.

(** [os.path.getsize(path)] *)
Definition getsize (w : World) (path : string) : result Z :=
  match files w path with
  | Some f => mret (Z.of_N (file_size f))
  | None => raise (os_error (stat_err w path) path)
  end.

(** [magic.from_file(path, mime=True)], which opens the file first. *)
Definition magic_from_file (w : World) (path : string) : result string :=
  match files w path with
  | Some f => file_mime f
  | None => raise (os_error (stat_err w path) path)
  end.

End Host.

Import Host.

(** ** validators.py *)

Module Validators.
Import Config.

Definition validate_file_exists (w : World) (file_path : string) : result bool :=
  path_exists w file_path.

(** [file_size / 1024 / 1024]. The first division is the true division of
    two [int]s, which Python rounds correctly; the divisor being a power of
    two, dividing the rounded dividend gives the same float for every
    length below [2^1024]. *)
Definition megabytes (file_size : Z) : float :=
  fdiv (fdiv (float_of_int file_size) (float_of_int 1024)) (float_of_int 1024).

(** The f-string of the failing branch of [validate_file_size]. *)
Definition size_message (file_size max_file_size_mb : Z) : string :=
  "File size (" +:+ format_f 1 (megabytes file_size)
  +:+ "MB) exceeds limit (" +:+ str_of_int max_file_size_mb +:+ "MB)".

Definition validate_file_size (settings : Settings) (w : World) (file_path : string)
  : result (bool * string) :=
  file_size ← getsize w file_path;
  let max_size := max_file_size_mb settings * 1024 * 1024 in
  if file_size >? max_size then
    mret (false, size_message file_size (max_file_size_mb settings))
  else
    mret (true, EmptyString).

Definition supported_mime_types : gmap string string :=
  list_to_map
    [ ("application/pdf", "pdf");
      ("image/png", "png");
      ("image/jpeg", "jpg");
      ("image/jpg", "jpg") ].

Definition validate_file_format (settings : Settings) (w : World) (file_path : string)
  : result (bool * string) :=
  try_except
    (mime_type ← magic_from_file w file_path;
     match supported_mime_types !! mime_type with
     | None => mret (false, "Unsupported file type: " +:+ mime_type)
     | Some detected_format =>
         if bool_decide (detected_format ∈ supported_formats settings) then
           mret (true, detected_format)
         else
           mret (false, "Format " +:+ detected_format +:+ " not supported")
     end)
    (λ e, mret (false, "Error detecting file type: " +:+ exn_str e)).

Definition validate_invoice_file (settings : Settings) (w : World) (file_path : string)
  : result (bool * string) :=
  found ← validate_file_exists w file_path;
  if negb found then
    mret (false, "File not found: " +:+ file_path)
  else
    '(size_valid, size_error) ← validate_file_size settings w file_path;
    if negb size_valid then
      mret (false, size_error)
    else
      '(format_valid, format_result) ← validate_file_format settings w file_path;
      if negb format_valid then
        mret (false, format_result)
      else
        mret (true, "Valid " +:+ format_result +:+ " file").

End Validators.

(** ** processor.py *)

Module Processor.
Import Config.

Record InvoiceProcessor := { model : string; api_key : string }.

Definition _setup_environment (self : InvoiceProcessor) (w : World) : World :=
  if contains "gpt" (lower (model self)) then
    set_environ w "OPENAI_API_KEY" (api_key self)
  else if contains "gemini" (lower (model self)) then
    set_environ w "GEMINI_API_KEY" (api_key self)
  else if contains "claude" (lower (model self)) then
    set_environ w "ANTHROPIC_API_KEY" (api_key self)
  else
    w.

Definition __init__ (settings : Settings) (w : World) : result (InvoiceProcessor * World) :=
  if negb (has_ai_provider settings) then
    raise (ValueError "No AI provider configured. Please set API keys in .env file.")
  else
    '(m, k) ← get_preferred_model settings;
    let self := {| model := m; api_key := k |} in
    mret (self, _setup_environment self w).

Definition newline : string := String (ascii_of_N 10) EmptyString.

Definition system_prompt : string :=
  String.concat newline
    [ EmptyString;
      "            You are an expert invoice data extraction system. ";
      "            Extract structured data from the provided invoice document.";
      "            ";
      "            Please extract the following information:";
      "            - Invoice number";
      "            - Date and due date";
      "            - Vendor/supplier information (name, address, tax ID, contact info)";
      "            - Customer/bill-to information (name, address)";
      "            - Line items with descriptions, quantities, unit prices, and totals";
      "            - Subtotal, tax amounts, and total";
      "            - Payment terms and notes";
      "            ";
      "            Return the data in a structured JSON format that matches the expected schema.";
      "            Be precise with numbers and dates. If information is not available, use null.";
      "            " ].

(** The [except] clause of [_parse_extracted_data]. *)
Definition parse_error_fallback (content : pyobj) (e : exn) : result InvoiceData :=
  raw ← slice_fmt 200 content;
  mret (InvoiceData_new None
          (Some ("Parsing error: " +:+ exn_str e +:+ ". Raw content: " +:+ raw +:+ "..."))).

Definition _parse_extracted_data (content : pyobj) : result InvoiceData :=
  try_except
    (raw ← slice_fmt 500 content;
     mret (InvoiceData_new (Some "Extracted from AI response")
             (Some ("Raw extracted content: " +:+ raw +:+ "..."))))
    (parse_error_fallback content).

(** The [zerox] call of [process_invoice]. *)
Definition call_zerox (self : InvoiceProcessor) (w : World) (file_path : string)
  : result ZeroxOutput :=
  zerox w (environ w)
    {| zx_file_path := file_path;
       zx_model := model self;
       zx_cleanup := true;
       zx_custom_system_prompt := system_prompt;
       zx_maintain_format := false;
       zx_temperature := float_lit1 0 1 |}.

(** The keyword arguments of that call. *)
Definition zerox_args (self : InvoiceProcessor) (file_path : string) : ZeroxCall :=
  {| zx_file_path := file_path;
     zx_model := model self;
     zx_cleanup := true;
     zx_custom_system_prompt := system_prompt;
     zx_maintain_format := false;
     zx_temperature := float_lit1 0 1 |}.

(** [result.content if result and hasattr(result, 'content') else str(result)] *)
Definition content_of (result : ZeroxOutput) : pyobj :=
  match out_truthy result, out_content result with
  | true, Some c => c
  | _, _ => PyStr (out_str result)
  end.

(** The [try] block of [process_invoice] up to the parsed record. *)
Definition extract_and_parse (self : InvoiceProcessor) (w : World) (file_path : string)
  : result InvoiceData :=
  result ← call_zerox self w file_path;
  _parse_extracted_data (content_of result).

Definition process_invoice (self : InvoiceProcessor) (w : World) (file_path : string)
  : ProcessingResult * World :=
  let '(start_time, w) := time_time w in
  let attempt := extract_and_parse self w file_path in
  let w := after_zerox w (zerox_args self file_path) in
  match attempt with
  | inr invoice_data =>
      let '(now, w) := time_time w in
      ({| success := true;
          invoice_data := Some invoice_data;
          error_message := None;
          processing_time := Some (fsub now start_time);
          confidence_score := Some (float_lit1 0 9) |}, w)
  | inl e =>
      let '(now, w) := time_time w in
      ({| success := false;
          invoice_data := None;
          error_message := Some ("Processing failed: " +:+ exn_str e);
          processing_time := Some (fsub now start_time);
          confidence_score := None |}, w)
  end.

(** [asyncio.run] drives the coroutine to completion. *)
Definition process_invoice_sync (self : InvoiceProcessor) (w : World) (file_path : string)
  : ProcessingResult * World :=
  process_invoice self w file_path.

(** [InvoiceProcessor().process_invoice_sync(path)], as [cli.py] lines
    89-90 call the orchestrator. *)
Definition construct_and_process (settings : Settings) (w : World) (file_path : string)
  : result (ProcessingResult * World) :=
  '(processor, w) ← __init__ settings w;
  mret (process_invoice_sync processor w file_path).

End Processor.

(** ** cli.py *)

Module Cli.
Import Config Validators Processor.

Inductive stream := Stdout | Stderr.

(** What reaches the terminal: a [click.echo] line, the traceback printed
    by [traceback.print_exc()], or the usage error click prints on standard
    error when it rejects a parameter. *)
Inductive line :=
| Echo (s : stream) (text : string)
| Traceback (e : exn)
| UsageError.

(** How control leaves [main] early: [sys.exit(code)], which no
    [except Exception] clause intercepts, or an exception. *)
Inductive stop :=
| SystemExit (code : Z)
| Raised (e : exn).

(** The dictionary handed to [json.dump]. *)
Record OutputData := {
  od_success : bool;
  od_processing_time : option float;
  od_confidence_score : option float;
  od_invoice_data : option InvoiceData;
  od_input_file : string;
  od_output_file : string;
  od_model_used : string }.

(** One file opened for writing: its path, the [--pretty] flag, and the
    data when [json.dump] went through; without them the file is left
    created or truncated. *)
Record Written := { wr_path : string; wr_pretty : bool; wr_data : option OutputData }.

Record Run := { world : World; console : list line; written : list Written }.

Definition cli (A : Type) : Type := Run → Run * (stop + A).

#[global] Instance cli_ret : MRet cli := λ A a r, (r, inr a).
#[global] Instance cli_bind : MBind cli := λ A B k m r,
  match m r with
  | (r', inl s) => (r', inl s)
  | (r', inr a) => k a r'
  end.

Definition echo (s : stream) (text : string) : cli unit := λ r,
  ({| world := world r; console := console r ++ [Echo s text]; written := written r |},
   inr ()).

Definition print_exc (e : exn) : cli unit := λ r,
  ({| world := world r; console := console r ++ [Traceback e]; written := written r |},
   inr ()).

Definition sys_exit {A} (code : Z) : cli A := λ r, (r, inl (SystemExit code)).

(** A call that may raise and leaves the world as it is. *)
Definition call {A} (f : World → result A) : cli A := λ r,
  match f (world r) with
  | inl e => (r, inl (Raised e))
  | inr a => (r, inr a)
  end.

(** A call that may raise or return together with a new world. *)
Definition call_upd {A} (f : World → result (A * World)) : cli A := λ r,
  match f (world r) with
  | inl e => (r, inl (Raised e))
  | inr (a, w) =>
      ({| world := w; console := console r; written := written r |}, inr a)
  end.

Definition when (b : bool) (c : cli unit) : cli unit :=
  if b then c else mret ().

(** [try: body except Exception as e: handler(e)] *)
Definition try_cli {A} (body : cli A) (handler : exn → cli A) : cli A := λ r,
  match body r with
  | (r', inl (Raised e)) => handler e r'
  | other => other
  end.

(** [with open(path, 'w') as f: json.dump(data, f, ...)]: opening creates
    or truncates the file before anything is dumped. *)
Definition dump (path : string) (pretty : bool) (data : OutputData) : cli unit := λ r,
  match open_w (world r) path with
  | inl e => (r, inl (Raised e))
  | inr _ =>
      match write_w (world r) path with
      | inl e =>
          ({| world := world r; console := console r;
              written := written r
                         ++ [{| wr_path := path; wr_pretty := pretty; wr_data := None |}] |},
           inl (Raised e))
      | inr _ =>
          ({| world := world r; console := console r;
              written := written r
                         ++ [{| wr_path := path; wr_pretty := pretty;
                                wr_data := Some data |}] |},
           inr ())
      end
  end.

(** [click.Path(exists=must_exist).convert(value)]: the value itself, or
    [BadParameter] when the path is required and missing, or present and
    not readable; the [ValueError] of a null character is no [OSError] and
    is not intercepted. *)
Definition click_Path (must_exist : bool) (w : World) (value : string) : result string :=
  match files w value with
  | None =>
      match stat_err w value with
      | ENULL => raise (os_error ENULL value)
      | _ => if must_exist
             then raise (Exn "BadParameter" ("Path " +:+ repr value +:+ " does not exist."))
             else mret value
      end
  | Some f =>
      if access_ok f then mret value
      else raise (Exn "BadParameter" ("Path " +:+ repr value +:+ " is not readable."))
  end.

(** The conversion of one parameter before the body of the command runs:
    on [BadParameter] click prints the usage error and exits with 2. *)
Definition click_param (convert : World → string → result string) (value : string)
  : cli unit := λ r,
  match convert (world r) value with
  | inr _ => (r, inr ())
  | inl e =>
      if String.eqb (exn_class e) "BadParameter" then
        ({| world := world r; console := console r ++ [UsageError]; written := written r |},
         inl (SystemExit 2))
      else (r, inl (Raised e))
  end.

(** [d.model_dump()]. The package imports [BaseSettings] from [pydantic],
    which only pydantic 1 provides, and a pydantic 1 model has no
    [model_dump]. *)
Definition model_dump (d : InvoiceData) : result InvoiceData :=
  raise (AttributeError "'InvoiceData' object has no attribute 'model_dump'").

(** [f"{o}"] for an [Optional[str]]. *)
Definition fmt_opt (o : option string) : string := default "None" o.

(** [f"{o:.2f}"] for an [Optional[float]]: [None] rejects the format. *)
Definition fmt_opt_2f (o : option float) : result string :=
  match o with
  | Some x => mret (format_f 2 x)
  | None => raise (TypeError "unsupported format string passed to NoneType.__format__")
  end.

(** [main] as click runs it: the parameters are converted first, the
    argument before the option, then the body of the command runs. *)
Definition main (settings : Settings) (input_file : string) (output : option string)
    (pretty verbose : bool) : cli unit :=
  click_param (click_Path true) input_file;;
  match output with
  | Some o => click_param (click_Path false) o
  | None => mret ()
  end;;
  when verbose (
    echo Stdout "🧾 Invoice Extractor CLI";;
    echo Stdout (repeat_str "=" 50));;
  (if negb (has_ai_provider settings) then
     echo Stderr "❌ Error: No AI provider configured.";;
     echo Stderr "Please set API keys in .env file:";;
     echo Stderr "  - OPENAI_API_KEY for OpenAI GPT models";;
     echo Stderr "  - GEMINI_API_KEY for Google Gemini models";;
     echo Stderr "  - ANTHROPIC_API_KEY for Anthropic Claude models";;
     sys_exit 1
   else mret ());;
  when verbose (echo Stdout ("📄 Validating file: " +:+ input_file));;
  '(is_valid, validation_message) ← call (λ w, validate_invoice_file settings w input_file);
  (if negb is_valid then
     echo Stderr ("❌ File validation failed: " +:+ validation_message);;
     sys_exit 1
   else mret ());;
  when verbose (echo Stdout ("✅ " +:+ validation_message));;
  output ← match output with
           | None => call (λ w, with_suffix w input_file ".json")
           | Some o => mret o
           end;
  when verbose (
    echo Stdout ("📤 Output file: " +:+ output);;
    '(m, _) ← call (λ _, get_preferred_model settings);
    echo Stdout ("🤖 Using AI model: " +:+ m));;
  try_cli (
    when verbose (echo Stdout "🔄 Processing invoice...");;
    processor ← call_upd (__init__ settings);
    result ← call_upd (λ w, mret (process_invoice_sync processor w input_file));
    (if negb (success result) then
       echo Stderr ("❌ Processing failed: " +:+ fmt_opt (error_message result));;
       sys_exit 1
     else mret ());;
    dumped ← match invoice_data result with
             | Some d => d' ← call (λ _, model_dump d); mret (Some d')
             | None => mret None
             end;
    '(m, _) ← call (λ _, get_preferred_model settings);
    let output_data :=
      {| od_success := success result;
         od_processing_time := processing_time result;
         od_confidence_score := confidence_score result;
         od_invoice_data := dumped;
         od_input_file := input_file;
         od_output_file := output;
         od_model_used := m |} in
    dump output pretty output_data;;
    echo Stdout "✅ Processing completed successfully!";;
    when verbose (
      t ← call (λ _, fmt_opt_2f (processing_time result));
      echo Stdout ("⏱️  Processing time: " +:+ t +:+ " seconds");;
      c ← call (λ _, fmt_opt_2f (confidence_score result));
      echo Stdout ("📊 Confidence score: " +:+ c));;
    echo Stdout ("💾 Output saved to: " +:+ output))
  (λ e,
    echo Stderr ("❌ Unexpected error: " +:+ exn_str e);;
    when verbose (print_exc e);;
    sys_exit 1).

(** The exit status of the process. *)
Definition exit_code (r : stop + unit) : Z :=
  match r with
  | inr _ => 0
  | inl (SystemExit code) => code
  | inl (Raised _) => 1
  end.

Definition run_main (settings : Settings) (w : World) (input_file : string)
    (output : option string) (pretty verbose : bool) : Run * (stop + unit) :=
  main settings input_file output pretty verbose
    {| world := w; console := []; written := [] |}.

End Cli.

(** ** The two shapes of the result envelope *)

Module Envelope.

(** The time between the first two readings of the clock left in [w]. *)
Definition elapsed (w : World) : float :=
  fsub (clock w (S (ticks w))) (clock w (ticks w)).

Definition success_envelope (d : InvoiceData) (t : float) : ProcessingResult :=
  {| success := true; invoice_data := Some d; error_message := None;
     processing_time := Some t; confidence_score := Some (float_lit1 0 9) |}.

Definition failure_envelope (e : exn) (t : float) : ProcessingResult :=
  {| success := false; invoice_data := None;
     error_message := Some ("Processing failed: " +:+ exn_str e);
     processing_time := Some t; confidence_score := None |}.

End Envelope.

(** ** Sample hosts and configurations *)

Module Samples.
Import Config Processor.

Definition pdf (bytes : N) : File :=
  {| file_size := bytes; file_mime := inr "application/pdf" |}.

(** A small PDF, an oversized PDF, a PDF of exactly ten mebibytes, one with
    a byte more, and a text file. *)
Definition sample_files (path : string) : option File :=
  if String.eqb path "invoice.pdf" then Some (pdf 2048)
  else if String.eqb path "big.pdf" then Some (pdf 11534336)
  else if String.eqb path "limit.pdf" then Some (pdf 10485760)
  else if String.eqb path "over.pdf" then Some (pdf 10485761)
  else if String.eqb path "notes.txt" then
    Some {| file_size := 12; file_mime := inr "text/plain" |}
  else None.

Fixpoint has_dot (s : string) : bool :=
  match s with
  | EmptyString => false
  | String c s' => Ascii.eqb c "." || has_dot s'
  end.

(** A file name without its last extension. *)
Fixpoint stem (s : string) : string :=
  match s with
  | EmptyString => EmptyString
  | String c s' =>
      if has_dot s' then String c (stem s')
      else if Ascii.eqb c "." then EmptyString
      else s
  end.

(** A backend that answers every call with a page of text. *)
Definition text_backend (text : string)
    (env : gmap string string) (c : ZeroxCall) : result ZeroxOutput :=
  inr {| out_truthy := true; out_content := None; out_str := text |}.

(** A backend that cannot be reached. *)
Definition failing_backend (msg : string)
    (env : gmap string string) (c : ZeroxCall) : result ZeroxOutput :=
  inl (Exn "ConnectionError" msg).

(** A backend whose answer carries a [content] attribute set to [None]. *)
Definition none_backend
    (env : gmap string string) (c : ZeroxCall) : result ZeroxOutput :=
  inr {| out_truthy := true; out_content := Some PyNone; out_str := "ZeroxOutput()" |}.

(** A backend that opens the document before it answers, and leaves the
    host as it found it. *)
Definition reading (answer : gmap string string → ZeroxCall → result ZeroxOutput)
    (env : gmap string string) (fs : string → option File) (c : ZeroxCall)
  : result ZeroxOutput * gmap string string * (string → option File) :=
  (match fs (zx_file_path c) with
   | Some _ => answer env c
   | None => inl (os_error ENOENT (zx_file_path c))
   end, env, fs).

Definition sample_world (answer : gmap string string → ZeroxCall → result ZeroxOutput)
  : World :=
  {| environ := ∅;
     files := sample_files;
     stat_err := λ _, ENOENT;
     backend := reading answer;
     clock := λ n, float_of_int (Z.of_nat n);
     ticks := 0;
     with_suffix := λ p s, inr (stem p +:+ s);
     open_w := λ _, inr ();
     write_w := λ _, inr () |}.

Definition world_ok : World := sample_world (text_backend "Invoice INV-1, total 10.00").
Definition world_down : World := sample_world (failing_backend "network unreachable").
Definition world_none : World := sample_world none_backend.

Definition no_keys : Settings := Settings_new None None None.
Definition all_keys : Settings :=
  Settings_new (Some "sk-openai") (Some "sk-gemini") (Some "sk-anthropic").


Definition gpt_processor : InvoiceProcessor :=
  {| model := "gpt-4o"; api_key := "sk-openai" |}.

End Samples.

(** ** Vocabulary for the properties of the whole pipeline *)

Module Pipeline.
Import Config Processor Cli.

(** The three environment variables the constructor may write. *)
Definition credential_vars : list string :=
  ["OPENAI_API_KEY"; "GEMINI_API_KEY"; "ANTHROPIC_API_KEY"].

(** The keyword arguments [process_invoice] hands to [zerox]. *)
Definition invoice_call (self : InvoiceProcessor) (file_path : string) : ZeroxCall :=
  {| zx_file_path := file_path;
     zx_model := model self;
     zx_cleanup := true;
     zx_custom_system_prompt := system_prompt;
     zx_maintain_format := false;
     zx_temperature := float_lit1 0 1 |}.

(** The record the parser builds from a text. *)
Definition parsed_text (s : string) : InvoiceData :=
  InvoiceData_new (Some "Extracted from AI response")
    (Some ("Raw extracted content: " +:+ slice_to 500 s +:+ "...")).

(** The output path of [main]: the [--output] option when given, as click
    converts it, the input path with the suffix [.json] otherwise. *)
Definition resolve_output (w : World) (input_file : string) (output : option string)
  : result string :=
  match output with
  | Some o => click_Path false w o
  | None => with_suffix w input_file ".json"
  end.

(** Click lets the command run: it converts the input path, which must
    exist, and the [--output] option when there is one. *)
Definition accepted (w : World) (input_file : string) (output : option string) : Prop :=
  returns (click_Path true w input_file)
  ∧ match output with
    | Some o => returns (click_Path false w o)
    | None => True
    end.

(** How a run ends when click refuses a parameter with exception [e]. *)
Definition rejected (w : World) (e : exn) : Run * (stop + unit) :=
  if String.eqb (exn_class e) "BadParameter" then
    ({| world := w; console := [UsageError]; written := [] |}, inl (SystemExit 2))
  else
    ({| world := w; console := []; written := [] |}, inl (Raised e)).

(** The lines [click.echo] sent to one stream. *)
Definition echoed (s : stream) (c : list line) : list string :=
  omap (λ l, match l, s with
             | Echo Stdout t, Stdout => Some t
             | Echo Stderr t, Stderr => Some t
             | _, _ => None
             end) c.

(** The banner of a verbose run. *)
Definition banner (verbose : bool) : list line :=
  if verbose then
    [ Echo Stdout "🧾 Invoice Extractor CLI"; Echo Stdout (repeat_str "=" 50) ]
  else [].

(** What [main] prints when no provider is configured. *)
Definition config_help : list line :=
  [ Echo Stderr "❌ Error: No AI provider configured.";
    Echo Stderr "Please set API keys in .env file:";
    Echo Stderr "  - OPENAI_API_KEY for OpenAI GPT models";
    Echo Stderr "  - GEMINI_API_KEY for Google Gemini models";
    Echo Stderr "  - ANTHROPIC_API_KEY for Anthropic Claude models" ].

(** The progress lines of a verbose run up to the call of the orchestrator. *)
Definition progress (verbose : bool) (input_file msg out m : string) : list line :=
  if verbose then
    [ Echo Stdout "🧾 Invoice Extractor CLI";
      Echo Stdout (repeat_str "=" 50);
      Echo Stdout ("📄 Validating file: " +:+ input_file);
      Echo Stdout ("✅ " +:+ msg);
      Echo Stdout ("📤 Output file: " +:+ out);
      Echo Stdout ("🤖 Using AI model: " +:+ m);
      Echo Stdout "🔄 Processing invoice..." ]
  else [].

(** What [main] prints when [model_dump] is missing. *)
Definition no_model_dump : exn :=
  AttributeError "'InvoiceData' object has no attribute 'model_dump'".

End Pipeline.

(** ** More sample configurations and hosts *)

Module MoreSamples.
Import Config Samples.

(** The default configuration without the entry [jpeg]. *)
Definition no_jpeg_entry : Settings :=
  {| openai_api_key := None; openai_model := "gpt-4o";
     gemini_api_key := None; gemini_model := "gemini-2.0-flash-exp";
     anthropic_api_key := None; anthropic_model := "claude-3-5-sonnet-20241022";
     supported_formats := ["pdf"; "png"; "jpg"]; max_file_size_mb := 10 |}.

(** A configuration that lists [jpeg] but not [jpg]. *)
Definition pdf_jpeg_only : Settings :=
  {| openai_api_key := None; openai_model := "gpt-4o";
     gemini_api_key := None; gemini_model := "gemini-2.0-flash-exp";
     anthropic_api_key := None; anthropic_model := "claude-3-5-sonnet-20241022";
     supported_formats := ["pdf"; "jpeg"]; max_file_size_mb := 10 |}.

(** A configuration with the given size limit. *)
Definition with_limit (mb : Z) : Settings :=
  {| openai_api_key := Some "sk-openai"; openai_model := "gpt-4o";
     gemini_api_key := None; gemini_model := "gemini-2.0-flash-exp";
     anthropic_api_key := None; anthropic_model := "claude-3-5-sonnet-20241022";
     supported_formats := ["pdf"; "png"; "jpg"; "jpeg"]; max_file_size_mb := mb |}.

(** A host where every path holds the same PNG image, and one where every
    path holds an empty PDF. *)
Definition world_png : World :=
  set_files world_ok (λ _, Some {| file_size := 2048; file_mime := inr "image/png" |}).
Definition world_empty : World :=
  set_files world_ok (λ _, Some (pdf 0)).

(** A host where every path holds the same small JPEG image. *)
Definition world_jpeg : World :=
  set_files world_ok (λ _, Some {| file_size := 9; file_mime := inr "image/jpeg" |}).

(** A host whose disk is full. *)
Definition world_full : World :=
  {| environ := ∅; files := sample_files; stat_err := λ _, ENOENT;
     backend := reading (text_backend "Invoice INV-1, total 10.00");
     clock := λ n, float_of_int (Z.of_nat n); ticks := 0;
     with_suffix := λ p s, inr (stem p +:+ s);
     open_w := λ _, inr ();
     write_w := λ _, inl (Exn "OSError" "[Errno 28] No space left on device") |}.

(** A host whose current directory holds the file [invoice.pdf] and
    nothing else: the directory itself is reached as [.], and a path that
    goes through the file is refused with [ENOTDIR]. *)
Definition directory : File :=
  {| file_size := 4096;
     file_mime := inl (Exn "IsADirectoryError" "[Errno 21] Is a directory: '.'") |}.

Definition world_dir : World :=
  {| environ := ∅;
     files := λ p, if String.eqb p "." then Some directory
                   else if String.eqb p "invoice.pdf" then Some (pdf 2048)
                   else None;
     stat_err := λ p, if String.prefix "invoice.pdf/" p then ENOTDIR else ENOENT;
     backend := reading (text_backend "Invoice INV-1, total 10.00");
     clock := λ n, float_of_int (Z.of_nat n); ticks := 0;
     with_suffix := λ p s, inr (stem p +:+ s);
     open_w := λ _, inr ();
     write_w := λ _, inr () |}.

End MoreSamples.

(** * Properties *)

Import Config Validators Processor Cli Envelope Samples.
Import Pipeline MoreSamples.

(** ** Python primitives *)

Lemma truthy_configured (o : option string) : truthy o = true ↔ configured o.
Proof.
  unfold configured. destruct o as [k|]; simpl.
  - destruct (String.eqb_spec k EmptyString) as [->|Hne]; simpl.
    + split; [done|]. intros (k' & [= <-] & Hk). by destruct Hk.
    + split; [|done]. intros _. by exists k.
  - split; [done|]. by intros (k & ? & _).
Qed.

Lemma truthy_false_configured (o : option string) : truthy o = false ↔ ¬ configured o.
Proof.
  rewrite <-truthy_configured. by destruct (truthy o).
Qed.

Lemma truthy_Some (k : string) : k ≠ EmptyString → truthy (Some k) = true.
Proof. intros Hk. apply truthy_configured. by exists k. Qed.

Lemma truthy_or (a b : option string) : truthy (or_ a b) = truthy a || truthy b.
Proof. unfold or_. by destruct (truthy a) eqn:Ha. Qed.

Lemma has_ai_provider_spec (st : Settings) :
  has_ai_provider st
  = truthy (openai_api_key st) || truthy (gemini_api_key st) || truthy (anthropic_api_key st).
Proof. unfold has_ai_provider. by rewrite !truthy_or. Qed.

Lemma slice_to_length (n : nat) (s : string) :
  String.length (slice_to n s) = Nat.min n (String.length s).
Proof.
  revert s. induction n as [|n IH]; intros [|c s]; simpl; try done.
  by rewrite IH.
Qed.

Lemma slice_to_prefix (n : nat) (s : string) : String.prefix (slice_to n s) s = true.
Proof.
  revert s. induction n as [|n IH]; intros [|c s]; simpl; try done.
  destruct (ascii_dec c c); [apply IH | done].
Qed.



(** The literals [0.9] and [0.1] as binary64 numbers. *)
Example float_lit_0_9 : float_lit1 0 9 = S754_finite false 8106479329266893 (-53).
Proof. reflexivity. Qed.

Example float_lit_0_1 : float_lit1 0 1 = S754_finite false 7205759403792794 (-56).
Proof. reflexivity. Qed.

(** Fixed-point rendering rounds ties to even: 0.25 prints as [0.2]. *)
Example format_f_samples :
  format_f 1 (fdiv (float_of_int 1) (float_of_int 4)) = "0.2"
  ∧ format_f 1 (fdiv (float_of_int 3) (float_of_int 4)) = "0.8"
  ∧ format_f 2 (float_lit1 0 9) = "0.90"
  ∧ format_f 1 (float_of_int 2) = "2.0".
Proof. repeat split; reflexivity. Qed.

(** [str(Path(s))] drops what does not change the file a path names: the
    empty path is the current directory, and a trailing slash goes. *)
Example path_str_samples :
  path_str EmptyString = "."
  ∧ path_str "invoice.pdf/" = "invoice.pdf"
  ∧ path_str "a/./b//c" = "a/b/c"
  ∧ path_str "./a" = "a"
  ∧ path_str "a/.." = "a/.."
  ∧ path_str "/" = "/"
  ∧ path_str "/." = "/"
  ∧ path_str "//x" = "//x"
  ∧ path_str "///x/" = "/x".
Proof. repeat split; reflexivity. Qed.

Example repr_samples :
  repr "missing.pdf" = "'missing.pdf'"
  ∧ repr EmptyString = "''"
  ∧ repr "it's" = String dquote ("it's" +:+ String dquote EmptyString)
  ∧ repr (String (ascii_of_N 10) EmptyString) = String squote (String backslash "n'")
  ∧ repr (String (ascii_of_N 127) EmptyString) = String squote (String backslash "x7f'").
Proof. repeat split; reflexivity. Qed.

(** ** config.py *)

Lemma get_preferred_model_cases (st : Settings) :
  get_preferred_model st
  = if truthy (openai_api_key st) then inr (openai_model st, str_value (openai_api_key st))
    else if truthy (gemini_api_key st) then inr (gemini_model st, str_value (gemini_api_key st))
    else if truthy (anthropic_api_key st)
         then inr (anthropic_model st, str_value (anthropic_api_key st))
         else inl (ValueError "No AI provider configured").
Proof. reflexivity. Qed.

(** C7. [get_preferred_model] picks, in the fixed order OpenAI, Gemini,
    Anthropic, the first backend whose credential is configured and returns
    that backend's model identifier with that credential; it raises exactly
    when no credential is configured, and then with
    [ValueError("No AI provider configured")]. *)
Theorem get_preferred_model_priority (st : Settings) :
  (∀ k, openai_api_key st = Some k → k ≠ EmptyString →
        get_preferred_model st = inr (openai_model st, k))
  ∧ (¬ configured (openai_api_key st) →
     ∀ k, gemini_api_key st = Some k → k ≠ EmptyString →
          get_preferred_model st = inr (gemini_model st, k))
  ∧ (¬ configured (openai_api_key st) → ¬ configured (gemini_api_key st) →
     ∀ k, anthropic_api_key st = Some k → k ≠ EmptyString →
          get_preferred_model st = inr (anthropic_model st, k))
  ∧ (raises (get_preferred_model st)
     ↔ ¬ configured (openai_api_key st) ∧ ¬ configured (gemini_api_key st)
        ∧ ¬ configured (anthropic_api_key st))
  ∧ (∀ e, get_preferred_model st = inl e → e = ValueError "No AI provider configured").
Proof.
  rewrite get_preferred_model_cases.
  refine (conj _ (conj _ (conj _ (conj (conj _ _) _)))).
  - intros k Hk Hne. by rewrite Hk, (truthy_Some k Hne).
  - intros Ho%truthy_false_configured k Hk Hne.
    by rewrite Ho, Hk, (truthy_Some k Hne).
  - intros Ho%truthy_false_configured Hg%truthy_false_configured k Hk Hne.
    by rewrite Ho, Hg, Hk, (truthy_Some k Hne).
  - rewrite <-!truthy_false_configured.
    destruct (truthy (openai_api_key st)); [by intros [e ?]|].
    destruct (truthy (gemini_api_key st)); [by intros [e ?]|].
    by destruct (truthy (anthropic_api_key st)); [intros [e ?]|].
  - intros (Ho%truthy_false_configured & Hg%truthy_false_configured
            & Ha%truthy_false_configured).
    rewrite Ho, Hg, Ha. by eexists.
  - intros e.
    destruct (truthy (openai_api_key st)); [done|].
    destruct (truthy (gemini_api_key st)); [done|].
    destruct (truthy (anthropic_api_key st)); [done|].
    by intros [= <-].
Qed.

(** With all three keys OpenAI wins; without the OpenAI key Gemini wins;
    without the Gemini key too Anthropic wins; without any the call raises. *)
Lemma get_preferred_model_priority_witness :
  get_preferred_model all_keys = inr ("gpt-4o", "sk-openai")
  ∧ get_preferred_model (Settings_new None (Some "sk-gemini") (Some "sk-anthropic"))
    = inr ("gemini-2.0-flash-exp", "sk-gemini")
  ∧ get_preferred_model (Settings_new None None (Some "sk-anthropic"))
    = inr ("claude-3-5-sonnet-20241022", "sk-anthropic")
  ∧ raises (get_preferred_model no_keys).
Proof.
  split; [|split; [|split]].
  - apply (proj1 (get_preferred_model_priority all_keys) "sk-openai");
      [reflexivity | discriminate].
  - apply (proj1 (proj2 (get_preferred_model_priority
                           (Settings_new None (Some "sk-gemini") (Some "sk-anthropic"))))).
    + intros (k & Hk & _); discriminate Hk.
    + reflexivity.
    + discriminate.
  - apply (proj1 (proj2 (proj2 (get_preferred_model_priority
                                  (Settings_new None None (Some "sk-anthropic")))))).
    + intros (k & Hk & _); discriminate Hk.
    + intros (k & Hk & _); discriminate Hk.
    + reflexivity.
    + discriminate.
  - apply (proj1 (proj2 (proj2 (proj2 (get_preferred_model_priority no_keys))))).
    repeat split; intros (k & Hk & _); discriminate Hk.
Defined.

(** An empty credential does not count: the next backend is taken. *)
Example get_preferred_model_skips_empty :
  get_preferred_model (Settings_new (Some EmptyString) (Some "sk-gemini") None)
  = inr ("gemini-2.0-flash-exp", "sk-gemini").
Proof. reflexivity. Qed.

(** ** processor.py: the parser *)

Lemma slice_fmt_str (n : nat) (s : string) : slice_fmt n (PyStr s) = inr (slice_to n s).
Proof. reflexivity. Qed.

Lemma slice_fmt_inv (n : nat) (o : pyobj) (raw : string) :
  slice_fmt n o = inr raw → ∃ s, o = PyStr s ∧ raw = slice_to n s.
Proof. destruct o as [|s|z]; simpl; intros [= <-] || intros [=]. by exists s. Qed.

(** On a value that is not text the slice raises in the [try] block and
    again in the [except] clause, so the exception leaves the parser. *)
Example parse_none_raises :
  _parse_extracted_data PyNone = inl (TypeError "'NoneType' object is not subscriptable").
Proof. reflexivity. Qed.

(** C6, as the code has it. For every text the parser returns a record and
    does not raise. The record has the placeholder invoice number
    ["Extracted from AI response"], a [notes] field made of
    ["Raw extracted content: "], the first 500 characters of the text and
    ["..."], and every other field at its default (null, and no line
    items), whether the text is structured or not. The [except] clause, for
    every exception and every text, returns a record whose only non-null
    field is [notes], equal to
    ["Parsing error: <detail>. Raw content: <first 200 chars>..."]. *)
Theorem parse_extracted_data_text (s : string) :
  _parse_extracted_data (PyStr s)
  = inr {| invoice_number := Some "Extracted from AI response";
           date := None; due_date := None; vendor := None; customer := None;
           totals := None; line_items := [];
           notes := Some ("Raw extracted content: " +:+ slice_to 500 s +:+ "...");
           payment_terms := None |}
  ∧ String.length (slice_to 500 s) = Nat.min 500 (String.length s)
  ∧ String.prefix (slice_to 500 s) s = true
  ∧ ∀ e, parse_error_fallback (PyStr s) e
         = inr {| invoice_number := None;
                  date := None; due_date := None; vendor := None; customer := None;
                  totals := None; line_items := [];
                  notes := Some ("Parsing error: " +:+ exn_str e +:+ ". Raw content: "
                                 +:+ slice_to 200 s +:+ "...");
                  payment_terms := None |}.
Proof.
  split; [reflexivity|]. split; [apply slice_to_length|].
  split; [apply slice_to_prefix|]. reflexivity.
Qed.

(** C6 as stated fails: on a text that is not structured data the invoice
    number of the returned record is not null. *)
Lemma parse_extracted_data_invoice_number_not_null :
  ∃ d, _parse_extracted_data (PyStr "Dear customer, thank you.") = inr d
       ∧ invoice_number d ≠ None.
Proof. eexists. split; [reflexivity|]. discriminate. Qed.

(** C9. Whatever the parser returns, from the [try] block or from the
    [except] clause, carries a list of line items, and that list is the
    empty one. *)
Theorem parse_line_items_empty (content : pyobj) :
  (∀ d, _parse_extracted_data content = inr d → line_items d = [])
  ∧ (∀ e d, parse_error_fallback content e = inr d → line_items d = []).
Proof.
  split.
  - intros d. destruct content as [|s|z]; simpl; try discriminate.
    by intros [= <-].
  - intros e d. destruct content as [|s|z]; simpl; try discriminate.
    by intros [= <-].
Qed.

Lemma parse_line_items_empty_witness :
  (∃ d, _parse_extracted_data (PyStr "total: 12.50") = inr d ∧ line_items d = [])
  ∧ (∃ d, parse_error_fallback (PyStr "total: 12.50") (ValueError "bad") = inr d
          ∧ line_items d = []).
Proof.
  split.
  - eexists. split; [reflexivity|].
    apply (proj1 (parse_line_items_empty (PyStr "total: 12.50"))). reflexivity.
  - eexists. split; [reflexivity|].
    apply (proj2 (parse_line_items_empty (PyStr "total: 12.50")) (ValueError "bad")).
    reflexivity.
Defined.

(** ** processor.py: the orchestrator *)

Lemma process_invoice_cases (self : InvoiceProcessor) (w : World) (path : string) :
  (process_invoice self w path).1
  = match extract_and_parse self w path with
    | inr d => success_envelope d (elapsed w)
    | inl e => failure_envelope e (elapsed w)
    end.
Proof.
  unfold process_invoice, elapsed. simpl.
  change (extract_and_parse self _ path) with (extract_and_parse self w path).
  by destruct (extract_and_parse self w path).
Qed.

(** Two clock readings are consumed; the environment and the file system
    are those the backend leaves behind. *)
Lemma process_invoice_world (self : InvoiceProcessor) (w : World) (path : string) :
  (process_invoice self w path).2
  = {| environ := environ (after_zerox w (zerox_args self path));
       files := files (after_zerox w (zerox_args self path));
       stat_err := stat_err w; backend := backend w; clock := clock w;
       ticks := S (S (ticks w)); with_suffix := with_suffix w; open_w := open_w w;
       write_w := write_w w |}.
Proof.
  unfold process_invoice. simpl.
  change (extract_and_parse self _ path) with (extract_and_parse self w path).
  by destruct (extract_and_parse self w path).
Qed.

(** C1. In every result of [process_invoice], a true [success] comes with a
    record and no error message, a false [success] with an error message
    and no record. *)
Theorem process_invoice_envelope (self : InvoiceProcessor) (w : World) (path : string) :
  let r := (process_invoice self w path).1 in
  if success r
  then is_Some (invoice_data r) ∧ error_message r = None
  else invoice_data r = None ∧ is_Some (error_message r).
Proof.
  simpl. rewrite process_invoice_cases.
  destruct (extract_and_parse self w path); simpl; eauto.
Qed.

(** C10. When the backend call raises, or the parser raises on what the
    backend returned, [process_invoice] returns the failure envelope: the
    message is ["Processing failed: "] followed by [str(e)], the processing
    time is the difference of the two clock readings, the confidence score
    is null. Every failed result has this shape, and every successful
    result carries the confidence [0.9]. *)
Theorem process_invoice_failure_envelope
    (self : InvoiceProcessor) (w : World) (path : string) :
  let r := (process_invoice self w path).1 in
  (∀ e, call_zerox self w path = inl e → r = failure_envelope e (elapsed w))
  ∧ (∀ out e, call_zerox self w path = inr out →
              _parse_extracted_data (content_of out) = inl e →
              r = failure_envelope e (elapsed w))
  ∧ (success r = false →
     ∃ e, error_message r = Some ("Processing failed: " +:+ exn_str e)
          ∧ processing_time r = Some (elapsed w) ∧ confidence_score r = None)
  ∧ (success r = true → confidence_score r = Some (float_lit1 0 9)).
Proof.
  simpl. rewrite process_invoice_cases. unfold extract_and_parse.
  refine (conj _ (conj _ (conj _ _))).
  - by intros e ->.
  - intros out e Hz Hp. rewrite Hz. simpl. by rewrite Hp.
  - destruct (call_zerox self w path) as [e|out]; simpl; [by exists e|].
    destruct (_parse_extracted_data _) as [e|d]; simpl; [by exists e | done].
  - destruct (call_zerox self w path) as [e|out]; simpl; [done|].
    by destruct (_parse_extracted_data _).
Qed.

Lemma process_invoice_failure_envelope_witness :
  (process_invoice gpt_processor world_down "invoice.pdf").1
  = {| success := false; invoice_data := None;
       error_message := Some "Processing failed: network unreachable";
       processing_time := Some (float_of_int 1); confidence_score := None |}
  ∧ (process_invoice gpt_processor world_none "invoice.pdf").1
    = {| success := false; invoice_data := None;
         error_message := Some "Processing failed: 'NoneType' object is not subscriptable";
         processing_time := Some (float_of_int 1); confidence_score := None |}
  ∧ confidence_score (process_invoice gpt_processor world_ok "invoice.pdf").1
    = Some (S754_finite false 8106479329266893 (-53)).
Proof.
  split; [|split].
  - apply (proj1 (process_invoice_failure_envelope gpt_processor world_down "invoice.pdf")
             (Exn "ConnectionError" "network unreachable")).
    reflexivity.
  - apply (proj1 (proj2 (process_invoice_failure_envelope
                           gpt_processor world_none "invoice.pdf"))
             {| out_truthy := true; out_content := Some PyNone; out_str := "ZeroxOutput()" |}
             (TypeError "'NoneType' object is not subscriptable"));
      reflexivity.
  - apply (proj2 (proj2 (proj2 (process_invoice_failure_envelope
                                  gpt_processor world_ok "invoice.pdf")))).
    reflexivity.
Defined.

(** ** processor.py: construction *)

Lemma has_ai_provider_false (st : Settings) :
  has_ai_provider st = false
  ↔ ¬ configured (openai_api_key st) ∧ ¬ configured (gemini_api_key st)
     ∧ ¬ configured (anthropic_api_key st).
Proof.
  rewrite has_ai_provider_spec, <-!truthy_false_configured.
  destruct (truthy (openai_api_key st)), (truthy (gemini_api_key st)),
    (truthy (anthropic_api_key st)); simpl; intuition congruence.
Qed.

Lemma has_ai_provider_preferred (st : Settings) :
  has_ai_provider st = true → returns (get_preferred_model st).
Proof.
  rewrite has_ai_provider_spec, get_preferred_model_cases.
  destruct (truthy (openai_api_key st)); [by eexists|].
  destruct (truthy (gemini_api_key st)); [by eexists|].
  destruct (truthy (anthropic_api_key st)); [by eexists | done].
Qed.


(** C2, as the code has it. When none of the three credentials is
    configured, the constructor of the orchestrator raises
    [ValueError("No AI provider configured. Please set API keys in .env file.")],
    whose message contains ["No AI provider configured"]; the exception
    leaves [InvoiceProcessor().process_invoice_sync(path)] as it is, and no
    result envelope is built. *)
Theorem no_backend_raises (st : Settings) (w : World) (path : string) :
  ¬ configured (openai_api_key st) →
  ¬ configured (gemini_api_key st) →
  ¬ configured (anthropic_api_key st) →
  let e := ValueError "No AI provider configured. Please set API keys in .env file." in
  __init__ st w = inl e
  ∧ construct_and_process st w path = inl e
  ∧ contains "No AI provider configured" (exn_str e) = true.
Proof.
  intros Ho Hg Ha.
  assert (has_ai_provider st = false) as Hp by by apply has_ai_provider_false.
  simpl. unfold construct_and_process, __init__. rewrite Hp. by simpl.
Qed.

Lemma no_backend_raises_witness :
  construct_and_process no_keys world_ok "any.pdf"
  = inl (ValueError "No AI provider configured. Please set API keys in .env file.").
Proof.
  apply (no_backend_raises no_keys world_ok "any.pdf");
    intros (k & Hk & _); discriminate Hk.
Defined.

(** C2 as stated fails: without credentials, processing a path returns no
    envelope at all; the [ValueError] of the constructor escapes. *)
Lemma no_backend_no_envelope :
  construct_and_process no_keys world_ok "any.pdf"
  = inl (ValueError "No AI provider configured. Please set API keys in .env file.")
  ∧ ¬ ∃ r w', construct_and_process no_keys world_ok "any.pdf" = inr (r, w')
              ∧ success r = false.
Proof. split; [reflexivity|]. intros (r & w' & H & _). discriminate H. Qed.





(** ** validators.py *)

Lemma validate_file_size_cases (st : Settings) (w : World) (path : string) (f : File) :
  files w path = Some f →
  validate_file_size st w path
  = if Z.of_N (file_size f) >? max_file_size_mb st * 1024 * 1024
    then inr (false, size_message (Z.of_N (file_size f)) (max_file_size_mb st))
    else inr (true, EmptyString).
Proof.
  intros Hf. unfold validate_file_size, getsize. rewrite Hf. simpl.
  by destruct (_ >? _).
Qed.



(** A limit of one megabyte and a file of two: the reason reads
    ["File size (2.0MB) exceeds limit (1MB)"]. *)
Example size_message_two_megabytes :
  size_message 2097152 1 = "File size (2.0MB) exceeds limit (1MB)"
  ∧ size_message 1572864 1 = "File size (1.5MB) exceeds limit (1MB)"
  ∧ size_message 1310720 1 = "File size (1.2MB) exceeds limit (1MB)"
  ∧ size_message 1 0 = "File size (0.0MB) exceeds limit (0MB)".
Proof. repeat split; reflexivity. Qed.

(** The MIME table maps to three canonical forms. *)
Lemma supported_mime_types_range (mime fmt : string) :
  supported_mime_types !! mime = Some fmt → fmt ∈ ["pdf"; "png"; "jpg"].
Proof.
  intros H%elem_of_list_to_map_2.
  repeat (apply elem_of_cons in H as [[= _ <-]|H]; [set_solver|]).
  by apply elem_of_nil in H.
Qed.

(** The content-type stage never raises, and its four outcomes. *)
Lemma validate_file_format_cases (st : Settings) (w : World) (path : string) (f : File) :
  files w path = Some f →
  validate_file_format st w path
  = inr match file_mime f with
        | inl e => (false, "Error detecting file type: " +:+ exn_str e)
        | inr mime =>
            match supported_mime_types !! mime with
            | None => (false, "Unsupported file type: " +:+ mime)
            | Some fmt =>
                if bool_decide (fmt ∈ supported_formats st)
                then (true, fmt)
                else (false, "Format " +:+ fmt +:+ " not supported")
            end
        end.
Proof.
  intros Hf. unfold validate_file_format, magic_from_file. rewrite Hf.
  destruct (file_mime f) as [e|mime]; simpl; [done|].
  destruct (supported_mime_types !! mime) as [fmt|]; simpl; [|done].
  by destruct (bool_decide _).
Qed.


Lemma validate_file_exists_file (w : World) (path : string) (f : File) :
  files w path = Some f → validate_file_exists w path = inr true.
Proof. intros Hf. unfold validate_file_exists, path_exists. by rewrite Hf. Qed.

Lemma validate_file_size_inv (st : Settings) (w : World) (path : string)
    (x : bool * string) :
  validate_file_size st w path = inr x → ∃ f, files w path = Some f.
Proof.
  unfold validate_file_size, getsize. destruct (files w path) as [f|]; [by exists f|].
  done.
Qed.



(** Where the existence check and [os.stat] disagree the validator raises:
    the empty path is the current directory for [pathlib] and nothing for
    [os.path.getsize]; a file name with a trailing slash is the file for
    [pathlib] and a path through a non-directory for [os.path.getsize]. *)
Example validate_invoice_file_raises :
  validate_invoice_file all_keys world_dir EmptyString
  = inl (FileNotFoundError "[Errno 2] No such file or directory: ''")
  ∧ validate_invoice_file all_keys world_dir "invoice.pdf/"
    = inl (Exn "NotADirectoryError" "[Errno 20] Not a directory: 'invoice.pdf/'")
  ∧ validate_invoice_file all_keys world_dir "invoice.pdf/x"
    = inr (false, "File not found: invoice.pdf/x").
Proof. repeat split; reflexivity. Qed.

(** The other two content-type reasons: a format taken out of the accepted
    set, and a sniffer that raises. *)
Example validate_file_format_reasons :
  validate_file_format
    {| openai_api_key := None; openai_model := "gpt-4o";
       gemini_api_key := None; gemini_model := "gemini-2.0-flash-exp";
       anthropic_api_key := None; anthropic_model := "claude-3-5-sonnet-20241022";
       supported_formats := ["pdf"]; max_file_size_mb := 10 |}
    (set_files world_ok
       (λ _, Some {| file_size := 10; file_mime := inr "image/png" |}))
    "scan.png"
  = inr (false, "Format png not supported")
  ∧ validate_file_format all_keys
      (set_files world_ok
         (λ _, Some {| file_size := 10; file_mime := inl (Exn "MagicException" "bad magic") |}))
      "scan.png"
    = inr (false, "Error detecting file type: bad magic").
Proof. split; reflexivity. Qed.

(** ** config.py: the guard and the selector *)

(** The guard of the constructor and the selector agree: a provider is
    reported exactly when one of the three keys is present and non-empty,
    and exactly then [get_preferred_model] returns instead of raising. *)
Theorem has_ai_provider_iff_preferred (st : Settings) :
  (has_ai_provider st = true
   ↔ configured (openai_api_key st) ∨ configured (gemini_api_key st)
      ∨ configured (anthropic_api_key st))
  ∧ (has_ai_provider st = true ↔ returns (get_preferred_model st))
  ∧ (has_ai_provider st = false ↔ raises (get_preferred_model st)).
Proof.
  rewrite has_ai_provider_spec, get_preferred_model_cases, <-!truthy_configured.
  destruct (truthy (openai_api_key st)), (truthy (gemini_api_key st)),
    (truthy (anthropic_api_key st)); simpl;
    (split; [|split]); split; try done; eauto;
    try (by intros [? ?]); try (by intros [?|[?|?]]); by eexists.
Qed.

Lemma has_ai_provider_iff_preferred_witness :
  has_ai_provider (Settings_new (Some EmptyString) None (Some "sk-anthropic")) = true
  ∧ returns (get_preferred_model (Settings_new (Some EmptyString) None (Some "sk-anthropic")))
  ∧ raises (get_preferred_model (Settings_new (Some EmptyString) None None)).
Proof.
  split; [|split].
  - apply (proj1 (has_ai_provider_iff_preferred
                    (Settings_new (Some EmptyString) None (Some "sk-anthropic")))).
    right. right. exists "sk-anthropic". split; [reflexivity | discriminate].
  - apply (proj1 (proj2 (has_ai_provider_iff_preferred
                           (Settings_new (Some EmptyString) None (Some "sk-anthropic"))))).
    reflexivity.
  - apply (proj2 (proj2 (has_ai_provider_iff_preferred
                           (Settings_new (Some EmptyString) None None)))).
    reflexivity.
Defined.

(** Whatever [get_preferred_model] returns is the model identifier of one
    of the three backends paired with that backend's own key, and the key is
    not empty. *)
Theorem get_preferred_model_sound (st : Settings) (m k : string) :
  get_preferred_model st = inr (m, k) →
  k ≠ EmptyString
  ∧ ((m = openai_model st ∧ openai_api_key st = Some k)
     ∨ (m = gemini_model st ∧ gemini_api_key st = Some k)
     ∨ (m = anthropic_model st ∧ anthropic_api_key st = Some k)).
Proof.
  rewrite get_preferred_model_cases.
  destruct (truthy (openai_api_key st)) eqn:Ho.
  { apply truthy_configured in Ho as (k' & Hk & Hne). rewrite Hk. simpl.
    intros [= <- <-]. eauto. }
  destruct (truthy (gemini_api_key st)) eqn:Hg.
  { apply truthy_configured in Hg as (k' & Hk & Hne). rewrite Hk. simpl.
    intros [= <- <-]. eauto. }
  destruct (truthy (anthropic_api_key st)) eqn:Ha; [|done].
  apply truthy_configured in Ha as (k' & Hk & Hne). rewrite Hk. simpl.
  intros [= <- <-]. eauto 6.
Qed.

Lemma get_preferred_model_sound_witness :
  "sk-gemini" ≠ EmptyString
  ∧ (("gemini-2.0-flash-exp" = "gpt-4o" ∧ None = Some "sk-gemini")
     ∨ ("gemini-2.0-flash-exp" = "gemini-2.0-flash-exp" ∧ Some "sk-gemini" = Some "sk-gemini")
     ∨ ("gemini-2.0-flash-exp" = "claude-3-5-sonnet-20241022"
        ∧ Some "sk-anthropic" = Some "sk-gemini")).
Proof.
  apply (get_preferred_model_sound
           (Settings_new None (Some "sk-gemini") (Some "sk-anthropic"))
           "gemini-2.0-flash-exp" "sk-gemini").
  reflexivity.
Defined.

(** ** validators.py: the single checks *)

Lemma validate_file_format_missing (st : Settings) (w : World) (path : string) :
  files w path = None →
  validate_file_format st w path
  = inr (false, "Error detecting file type: " +:+ exn_str (os_error (stat_err w path) path)).
Proof.
  intros Hf. unfold validate_file_format, magic_from_file. by rewrite Hf.
Qed.

(** The content-type check never raises, not even on a path that does not
    exist, and it accepts with format [fmt] exactly when the sniffed MIME
    type is in the table with entry [fmt] and [fmt] is an accepted format. *)
Theorem validate_file_format_accepts (st : Settings) (w : World) (path fmt : string) :
  returns (validate_file_format st w path)
  ∧ (validate_file_format st w path = inr (true, fmt)
     ↔ ∃ f mime, files w path = Some f ∧ file_mime f = inr mime
                 ∧ supported_mime_types !! mime = Some fmt
                 ∧ fmt ∈ supported_formats st).
Proof.
  destruct (files w path) as [f|] eqn:Hf.
  - rewrite (validate_file_format_cases st w path f Hf). split; [by eexists|].
    split.
    + destruct (file_mime f) as [e|mime] eqn:Hm; [done|].
      destruct (supported_mime_types !! mime) as [fmt'|] eqn:Ht; [|done].
      destruct (bool_decide_reflect (fmt' ∈ supported_formats st)); [|done].
      intros [= <-]. by exists f, mime.
    + intros (f' & mime & [= <-] & Hm & Ht & Hin).
      by rewrite Hm, Ht, bool_decide_true.
  - rewrite (validate_file_format_missing st w path Hf). split; [by eexists|].
    split; [done|]. by intros (f & mime & ? & _).
Qed.

(** The verdict depends on what the file holds, never on how it is named:
    two existing paths with the same length and the same outcome of the
    sniffing get the same answer. *)
Theorem validate_invoice_file_ignores_name
    (st : Settings) (w : World) (p1 p2 : string) (f : File) :
  files w p1 = Some f → files w p2 = Some f →
  validate_invoice_file st w p1 = validate_invoice_file st w p2.
Proof.
  intros H1 H2. unfold validate_invoice_file.
  by rewrite (validate_file_exists_file w p1 f H1), (validate_file_exists_file w p2 f H2),
    (validate_file_size_cases st w p1 f H1),
    (validate_file_size_cases st w p2 f H2),
    (validate_file_format_cases st w p1 f H1),
    (validate_file_format_cases st w p2 f H2).
Qed.

(** A PNG image named [report.pdf] is accepted as [png], like the same
    image named [report.png]. *)
Lemma validate_invoice_file_ignores_name_witness :
  validate_invoice_file all_keys world_png "report.pdf"
  = validate_invoice_file all_keys world_png "report.png"
  ∧ validate_invoice_file all_keys world_png "report.pdf" = inr (true, "Valid png file").
Proof.
  split; [|reflexivity].
  apply (validate_invoice_file_ignores_name all_keys world_png "report.pdf" "report.png"
           {| file_size := 2048; file_mime := inr "image/png" |});
    reflexivity.
Defined.

(** Of the accepted formats only [pdf], [png] and [jpg] are ever consulted:
    two configurations that agree on these three give the same content-type
    verdict, whatever else they list (the default entry [jpeg] included). *)
Theorem validate_file_format_formats_consulted
    (st st' : Settings) (w : World) (path : string) :
  (∀ fmt, fmt ∈ ["pdf"; "png"; "jpg"] →
          (fmt ∈ supported_formats st ↔ fmt ∈ supported_formats st')) →
  validate_file_format st w path = validate_file_format st' w path.
Proof.
  intros Hagree. destruct (files w path) as [f|] eqn:Hf.
  - rewrite !(validate_file_format_cases _ w path f Hf).
    destruct (file_mime f) as [e|mime]; [done|].
    destruct (supported_mime_types !! mime) as [fmt|] eqn:Ht; [|done].
    apply supported_mime_types_range in Ht.
    by rewrite (bool_decide_ext _ _ (Hagree fmt Ht)).
  - by rewrite !(validate_file_format_missing _ w path Hf).
Qed.

Lemma validate_file_format_formats_consulted_witness :
  validate_file_format all_keys world_ok "invoice.pdf"
  = validate_file_format no_jpeg_entry world_ok "invoice.pdf".
Proof.
  apply (validate_file_format_formats_consulted all_keys no_jpeg_entry world_ok "invoice.pdf").
  intros fmt Hin. simpl. rewrite !elem_of_cons in *. intuition.
Defined.

(** Without the entry [jpg] a JPEG image is refused, even when [jpeg] is
    listed: the table maps both [image/jpeg] and [image/jpg] to [jpg]. *)
Theorem validate_file_format_jpeg (st : Settings) (w : World) (path mime : string)
    (f : File) :
  files w path = Some f → file_mime f = inr mime →
  mime = "image/jpeg" ∨ mime = "image/jpg" →
  validate_file_format st w path
  = if bool_decide ("jpg" ∈ supported_formats st)
    then inr (true, "jpg")
    else inr (false, "Format jpg not supported").
Proof.
  intros Hf Hm Hmime. rewrite (validate_file_format_cases st w path f Hf), Hm.
  assert (supported_mime_types !! mime = Some "jpg") as ->
    by (destruct Hmime as [-> | ->]; reflexivity).
  by destruct (bool_decide _).
Qed.

Lemma validate_file_format_jpeg_witness :
  validate_file_format pdf_jpeg_only world_jpeg "photo.jpeg"
  = inr (false, "Format jpg not supported")
  ∧ validate_file_format all_keys world_jpeg "photo.jpeg" = inr (true, "jpg").
Proof.
  split.
  - rewrite (validate_file_format_jpeg pdf_jpeg_only world_jpeg "photo.jpeg" "image/jpeg"
               {| file_size := 9; file_mime := inr "image/jpeg" |}
               eq_refl eq_refl (or_introl eq_refl)).
    reflexivity.
  - rewrite (validate_file_format_jpeg all_keys world_jpeg "photo.jpeg" "image/jpeg"
               {| file_size := 9; file_mime := inr "image/jpeg" |}
               eq_refl eq_refl (or_introl eq_refl)).
    reflexivity.
Defined.

Lemma prefix_append (a b : string) : String.prefix a (a +:+ b) = true.
Proof.
  induction a as [|c a IH]; simpl; [by destruct b|].
  by destruct (ascii_dec c c).
Qed.

(** On a path that [os.stat] does not resolve, the size check raises the
    error of the failed lookup ([FileNotFoundError] for a missing entry,
    [NotADirectoryError] for a path through a regular file), and the
    content-type check turns that error into a refusal. The combined
    validator answers ["File not found: <path>"] when the existence check
    says no; when [pathlib] finds the path all the same (the empty path, a
    file name followed by a slash), it raises the error of the size
    check. *)
Theorem validators_on_missing_path (st : Settings) (w : World) (path : string) :
  files w path = None →
  (∃ e, validate_file_size st w path = inl e
        ∧ (stat_err w path = ENOENT → exn_class e = "FileNotFoundError")
        ∧ (stat_err w path = ENOTDIR → exn_class e = "NotADirectoryError"))
  ∧ (∃ reason, validate_file_format st w path = inr (false, reason)
               ∧ String.prefix "Error detecting file type: " reason = true)
  ∧ (validate_file_exists w path = inr false →
     validate_invoice_file st w path = inr (false, "File not found: " +:+ path))
  ∧ (validate_file_exists w path = inr true →
     ∃ e, validate_invoice_file st w path = inl e
          ∧ validate_file_size st w path = inl e).
Proof.
  intros Hf.
  assert (validate_file_size st w path = inl (os_error (stat_err w path) path)) as Hs.
  { unfold validate_file_size, getsize. by rewrite Hf. }
  refine (conj _ (conj _ (conj _ _))).
  - exists (os_error (stat_err w path) path). split; [exact Hs|].
    split; intros Hk; rewrite Hk; reflexivity.
  - rewrite (validate_file_format_missing st w path Hf).
    eexists. split; [reflexivity | apply prefix_append].
  - intros He. unfold validate_invoice_file. by rewrite He.
  - intros He. unfold validate_invoice_file. rewrite He, Hs. by eexists.
Qed.

Lemma validators_on_missing_path_witness :
  validate_invoice_file all_keys world_dir "nowhere.pdf"
  = inr (false, "File not found: nowhere.pdf")
  ∧ (∃ e, validate_invoice_file all_keys world_dir EmptyString = inl e
          ∧ validate_file_size all_keys world_dir EmptyString = inl e)
  ∧ (∃ e, validate_file_size all_keys world_dir "invoice.pdf/x" = inl e
          ∧ exn_class e = "NotADirectoryError").
Proof.
  split; [|split].
  - apply (proj1 (proj2 (proj2
             (validators_on_missing_path all_keys world_dir "nowhere.pdf" eq_refl)))).
    reflexivity.
  - apply (proj2 (proj2 (proj2
             (validators_on_missing_path all_keys world_dir EmptyString eq_refl)))).
    reflexivity.
  - destruct (proj1 (validators_on_missing_path all_keys world_dir "invoice.pdf/x" eq_refl))
      as (e & He & _ & Hc).
    exists e. split; [exact He | by apply Hc].
Defined.

(** The size limit at its edges: with a limit of zero megabytes only the
    empty file passes, with a negative limit no file passes, and a file
    that passes under one limit passes under every larger one. *)
Theorem validate_file_size_limits (st st' : Settings) (w : World) (path : string)
    (f : File) :
  files w path = Some f →
  (max_file_size_mb st = 0 →
   (validate_file_size st w path = inr (true, EmptyString) ↔ file_size f = 0%N))
  ∧ ((max_file_size_mb st < 0)%Z →
     validate_file_size st w path
     = inr (false, size_message (Z.of_N (file_size f)) (max_file_size_mb st)))
  ∧ ((max_file_size_mb st ≤ max_file_size_mb st')%Z →
     validate_file_size st w path = inr (true, EmptyString) →
     validate_file_size st' w path = inr (true, EmptyString)).
Proof.
  intros Hf. rewrite !(validate_file_size_cases _ w path f Hf).
  refine (conj _ (conj _ _)).
  - intros ->. destruct (Z.gtb_spec (Z.of_N (file_size f)) (0 * 1024 * 1024));
      split; try done; lia.
  - intros Hneg.
    destruct (Z.gtb_spec (Z.of_N (file_size f)) (max_file_size_mb st * 1024 * 1024));
      [done | lia].
  - intros Hle.
    destruct (Z.gtb_spec (Z.of_N (file_size f)) (max_file_size_mb st * 1024 * 1024));
      [done|].
    intros _.
    destruct (Z.gtb_spec (Z.of_N (file_size f)) (max_file_size_mb st' * 1024 * 1024));
      [lia | done].
Qed.

Lemma validate_file_size_limits_witness :
  validate_file_size (with_limit 0) world_empty "blank.pdf" = inr (true, EmptyString)
  ∧ validate_file_size (with_limit (-1)) world_empty "blank.pdf"
    = inr (false, "File size (0.0MB) exceeds limit (-1MB)")
  ∧ validate_file_size (with_limit 20) world_ok "limit.pdf" = inr (true, EmptyString).
Proof.
  split; [|split].
  - apply (proj1 (validate_file_size_limits (with_limit 0) (with_limit 0) world_empty
                    "blank.pdf" (pdf 0) eq_refl) eq_refl).
    reflexivity.
  - apply (proj1 (proj2 (validate_file_size_limits (with_limit (-1)) (with_limit (-1))
                           world_empty "blank.pdf" (pdf 0) eq_refl))).
    reflexivity.
  - apply (proj2 (proj2 (validate_file_size_limits (with_limit 10) (with_limit 20)
                           world_ok "limit.pdf" (pdf 10485760) eq_refl)));
      [simpl; lia | reflexivity].
Defined.

(** ** processor.py: the parser *)

Lemma length_append (a b : string) :
  String.length (a +:+ b) = (String.length a + String.length b)%nat.
Proof. induction a as [|c a IH]; simpl; [done|]. by rewrite IH. Qed.

Lemma slice_to_all (n : nat) (s : string) :
  (String.length s ≤ n)%nat → slice_to n s = s.
Proof.
  revert s. induction n as [|n IH]; intros [|c s]; simpl; try done; [lia|].
  intros Hle. rewrite IH; [done | lia].
Qed.

Lemma parse_text_eq (s : string) : _parse_extracted_data (PyStr s) = inr (parsed_text s).
Proof. reflexivity. Qed.

(** The [notes] of a parsed text are bounded: 26 characters of framing
    around at most 500 characters of the text, so never more than 526. *)
Theorem parse_notes_length (s : string) (d : InvoiceData) :
  _parse_extracted_data (PyStr s) = inr d →
  ∃ t, notes d = Some t
       ∧ String.length t = (26 + Nat.min 500 (String.length s))%nat
       ∧ (String.length t ≤ 526)%nat.
Proof.
  rewrite parse_text_eq. intros Hd.
  assert (d = parsed_text s) as -> by congruence.
  unfold parsed_text, InvoiceData_new. cbn [notes].
  eexists. split; [reflexivity|].
  rewrite !length_append, slice_to_length. cbn [String.length]. lia.
Qed.

Lemma parse_notes_length_witness :
  ∃ t, notes (parsed_text "Total due: 12.50") = Some t
       ∧ String.length t = (26 + Nat.min 500 16)%nat
       ∧ (String.length t ≤ 526)%nat.
Proof.
  apply (parse_notes_length "Total due: 12.50" (parsed_text "Total due: 12.50")).
  reflexivity.
Defined.

(** A text of at most 500 characters is kept whole, and the three dots are
    appended all the same. *)
Theorem parse_short_text (s : string) :
  (String.length s ≤ 500)%nat →
  _parse_extracted_data (PyStr s)
  = inr (InvoiceData_new (Some "Extracted from AI response")
           (Some ("Raw extracted content: " +:+ s +:+ "..."))).
Proof.
  intros Hle. rewrite parse_text_eq. unfold parsed_text.
  by rewrite (slice_to_all 500 s Hle).
Qed.

Lemma parse_short_text_witness :
  _parse_extracted_data (PyStr "paid")
  = inr (InvoiceData_new (Some "Extracted from AI response")
           (Some "Raw extracted content: paid...")).
Proof. apply (parse_short_text "paid"). simpl. lia. Defined.

(** Content that is not text ([None] or an integer) defeats the parser:
    the slice raises [TypeError] in the [try] block and again in the
    [except] clause, the
    exception leaves [_parse_extracted_data], and [process_invoice] reports
    it as a failure. *)
Theorem parse_non_text_raises (self : InvoiceProcessor) (w : World) (path : string)
    (out : ZeroxOutput) :
  call_zerox self w path = inr out →
  (∀ s, content_of out ≠ PyStr s) →
  let e := TypeError ("'" +:+ type_name (content_of out) +:+ "' object is not subscriptable") in
  _parse_extracted_data (content_of out) = inl e
  ∧ (process_invoice self w path).1 = failure_envelope e (elapsed w).
Proof.
  intros Hz Hne. simpl.
  assert (_parse_extracted_data (content_of out)
          = inl (TypeError ("'" +:+ type_name (content_of out)
                            +:+ "' object is not subscriptable"))) as Hp.
  { destruct (content_of out) as [|s|z]; [done | by destruct (Hne s) | done]. }
  split; [done|].
  rewrite process_invoice_cases. unfold extract_and_parse. rewrite Hz. simpl.
  by rewrite Hp.
Qed.

Lemma parse_non_text_raises_witness :
  (process_invoice gpt_processor world_none "invoice.pdf").1
  = failure_envelope (TypeError "'NoneType' object is not subscriptable")
      (elapsed world_none).
Proof.
  apply (parse_non_text_raises gpt_processor world_none "invoice.pdf"
           {| out_truthy := true; out_content := Some PyNone; out_str := "ZeroxOutput()" |});
    [reflexivity | discriminate].
Defined.

(** ** processor.py: the orchestrator *)

Lemma call_zerox_invoice_call (self : InvoiceProcessor) (w : World) (path : string) :
  call_zerox self w path = zerox w (environ w) (invoice_call self path).
Proof. reflexivity. Qed.

(** When the backend returns text, be it the [content] attribute of a
    truthy result or, failing that, [str(result)], the envelope is the
    successful one and carries the record parsed from that text. *)
Theorem process_invoice_text (self : InvoiceProcessor) (w : World) (path : string)
    (out : ZeroxOutput) :
  call_zerox self w path = inr out →
  (out_truthy out = false ∨ out_content out = None →
   (process_invoice self w path).1
   = success_envelope (parsed_text (out_str out)) (elapsed w))
  ∧ (∀ s, out_truthy out = true → out_content out = Some (PyStr s) →
          (process_invoice self w path).1
          = success_envelope (parsed_text s) (elapsed w)).
Proof.
  intros Hz. rewrite process_invoice_cases. unfold extract_and_parse. rewrite Hz.
  simpl. unfold content_of. split.
  - intros [-> | ->]; [done|]. by destruct (out_truthy out).
  - by intros s -> ->.
Qed.

Lemma process_invoice_text_witness :
  (process_invoice gpt_processor world_ok "invoice.pdf").1
  = success_envelope (parsed_text "Invoice INV-1, total 10.00") (elapsed world_ok).
Proof.
  apply (proj1 (process_invoice_text gpt_processor world_ok "invoice.pdf"
                  {| out_truthy := true; out_content := None;
                     out_str := "Invoice INV-1, total 10.00" |} eq_refl)).
  by right.
Defined.

(** The orchestrator calls the backend once, with the arguments of
    [invoice_call] and the environment of the moment: two hosts whose
    backends agree on that one call, and whose clocks agree, get the same
    envelope. *)
Theorem process_invoice_single_call (self : InvoiceProcessor) (w w' : World)
    (path : string) :
  zerox w (environ w) (invoice_call self path)
  = zerox w' (environ w') (invoice_call self path) →
  clock w (ticks w) = clock w' (ticks w') →
  clock w (S (ticks w)) = clock w' (S (ticks w')) →
  (process_invoice self w path).1 = (process_invoice self w' path).1.
Proof.
  intros Hz H0 H1. rewrite !process_invoice_cases.
  unfold extract_and_parse, elapsed. rewrite !call_zerox_invoice_call.
  by rewrite Hz, H0, H1.
Qed.

Lemma process_invoice_single_call_witness :
  (process_invoice gpt_processor world_ok "invoice.pdf").1
  = (process_invoice gpt_processor world_full "invoice.pdf").1.
Proof.
  apply (process_invoice_single_call gpt_processor world_ok world_full "invoice.pdf");
    reflexivity.
Defined.

(** ** processor.py: construction *)

Lemma set_environ_frame (w : World) (var v : string) :
  var ∈ credential_vars →
  (∀ k, k ∉ credential_vars → environ (set_environ w var v) !! k = environ w !! k)
  ∧ (∀ k, environ (set_environ w var v) !! k = environ w !! k
          ∨ environ (set_environ w var v) !! k = Some v)
  ∧ (∀ k, is_Some (environ w !! k) → is_Some (environ (set_environ w var v) !! k)).
Proof.
  intros Hvar. unfold set_environ. simpl. refine (conj _ (conj _ _)); intros k.
  - intros Hk. apply lookup_insert_ne. by intros ->.
  - rewrite lookup_insert. case_decide; eauto.
  - rewrite lookup_insert. case_decide; eauto.
Qed.

Lemma setup_environment_frame (self : InvoiceProcessor) (w : World) :
  let w' := _setup_environment self w in
  files w' = files w ∧ zerox w' = zerox w ∧ clock w' = clock w ∧ ticks w' = ticks w
  ∧ (∀ k, k ∉ credential_vars → environ w' !! k = environ w !! k)
  ∧ (∀ k, environ w' !! k = environ w !! k ∨ environ w' !! k = Some (api_key self))
  ∧ (∀ k, is_Some (environ w !! k) → is_Some (environ w' !! k)).
Proof.
  simpl. unfold _setup_environment.
  destruct (contains "gpt" (lower (model self)));
    [|destruct (contains "gemini" (lower (model self)));
      [|destruct (contains "claude" (lower (model self)))]].
  - repeat (split; [done|]). apply set_environ_frame. set_solver.
  - repeat (split; [done|]). apply set_environ_frame. set_solver.
  - repeat (split; [done|]). apply set_environ_frame. set_solver.
  - repeat (split; [done|]). split; [by left | done].
Qed.

(** Construction selects the preferred backend and touches nothing but the
    environment, where it writes at most the selected credential under one
    of the three credential variables and removes nothing. *)
Theorem init_frame (st : Settings) (w : World) (self : InvoiceProcessor) (w' : World) :
  __init__ st w = inr (self, w') →
  get_preferred_model st = inr (model self, api_key self)
  ∧ files w' = files w ∧ zerox w' = zerox w ∧ clock w' = clock w ∧ ticks w' = ticks w
  ∧ (∀ k, k ∉ credential_vars → environ w' !! k = environ w !! k)
  ∧ (∀ k, environ w' !! k = environ w !! k ∨ environ w' !! k = Some (api_key self))
  ∧ (∀ k, is_Some (environ w !! k) → is_Some (environ w' !! k)).
Proof.
  unfold __init__. destruct (has_ai_provider st) eqn:Hp; [|done]. simpl.
  destruct (get_preferred_model st) as [e|[m k]] eqn:Hg; [done|]. simpl.
  intros [= <- <-]. split; [done|].
  apply (setup_environment_frame {| model := m; api_key := k |} w).
Qed.

Lemma init_frame_witness :
  get_preferred_model all_keys = inr ("gpt-4o", "sk-openai")
  ∧ ∃ w', __init__ all_keys world_ok = inr (gpt_processor, w')
          ∧ ticks w' = ticks world_ok
          ∧ environ w' !! "PATH" = environ world_ok !! "PATH".
Proof.
  split.
  - apply (init_frame all_keys world_ok gpt_processor
             (_setup_environment gpt_processor world_ok) eq_refl).
  - eexists. split; [reflexivity|]. split.
    + apply (init_frame all_keys world_ok gpt_processor _ eq_refl).
    + apply (init_frame all_keys world_ok gpt_processor _ eq_refl).
      unfold credential_vars. rewrite !elem_of_cons.
      intros [H|[H|[H|H]]]; try discriminate H. by apply elem_of_nil in H.
Defined.

(** With the default model identifiers the credential that was selected is
    exported under the variable of its own backend. *)
Theorem init_exports_selected (o g a : option string) (w : World)
    (self : InvoiceProcessor) (w' : World) :
  __init__ (Settings_new o g a) w = inr (self, w') →
  (configured o ∧ model self = "gpt-4o" ∧ o = Some (api_key self)
   ∧ w' = set_environ w "OPENAI_API_KEY" (api_key self))
  ∨ (¬ configured o ∧ configured g ∧ model self = "gemini-2.0-flash-exp"
     ∧ g = Some (api_key self)
     ∧ w' = set_environ w "GEMINI_API_KEY" (api_key self))
  ∨ (¬ configured o ∧ ¬ configured g ∧ configured a
     ∧ model self = "claude-3-5-sonnet-20241022" ∧ a = Some (api_key self)
     ∧ w' = set_environ w "ANTHROPIC_API_KEY" (api_key self)).
Proof.
  unfold __init__. destruct (has_ai_provider _) eqn:Hp; [|done]. simpl.
  rewrite get_preferred_model_cases. simpl.
  rewrite <-!truthy_false_configured, <-!truthy_configured.
  destruct (truthy o) eqn:Ho.
  { apply truthy_configured in Ho as Ho'. destruct Ho' as (k & -> & Hne).
    simpl. intros [= <- <-]. left. by repeat split. }
  destruct (truthy g) eqn:Hg.
  { apply truthy_configured in Hg as Hg'. destruct Hg' as (k & -> & Hne).
    simpl. intros [= <- <-]. right. left. by repeat split. }
  destruct (truthy a) eqn:Ha; [|done].
  apply truthy_configured in Ha as Ha'. destruct Ha' as (k & -> & Hne).
  simpl. intros [= <- <-]. right. right. by repeat split.
Qed.

Lemma init_exports_selected_witness :
  ∃ self w', __init__ (Settings_new None (Some "sk-gemini") None) world_ok = inr (self, w')
             ∧ environ w' !! "GEMINI_API_KEY" = Some "sk-gemini"
             ∧ environ w' !! "OPENAI_API_KEY" = None.
Proof.
  eexists _, _. split; [reflexivity|].
  destruct (init_exports_selected None (Some "sk-gemini") None world_ok _ _ eq_refl)
    as [(_ & _ & H & _) | [(_ & _ & _ & _ & _) | (_ & _ & _ & _ & H & _)]];
    try discriminate H.
  split; reflexivity.
Defined.

(** ** cli.py: the runs of [main] *)

#[local] Arguments process_invoice : simpl never.
#[local] Arguments _setup_environment : simpl never.
#[local] Arguments validate_invoice_file : simpl never.
#[local] Arguments get_preferred_model : simpl never.
#[local] Arguments has_ai_provider : simpl never.
#[local] Arguments click_Path : simpl never.
#[local] Arguments format_f : simpl never.
#[local] Arguments repeat_str : simpl never.

Ltac unfold_main :=
  unfold run_main, main, click_param, when, call, call_upd, echo, sys_exit, dump,
    try_cli, print_exc, model_dump, mbind, mret, cli_bind, cli_ret, __init__,
    process_invoice_sync.

Lemma click_Path_inv (must_exist : bool) (w : World) (value x : string) :
  click_Path must_exist w value = inr x → x = value.
Proof.
  unfold click_Path. destruct (files w value) as [f|].
  - destruct (access_ok f); [by intros [= <-] | done].
  - destruct (stat_err w value), must_exist; try done; by intros [= <-].
Qed.

Lemma click_Path_exists (w : World) (value : string) :
  returns (click_Path true w value) ↔ ∃ f, files w value = Some f ∧ access_ok f = true.
Proof.
  unfold click_Path. split.
  - intros [x Hx]. destruct (files w value) as [f|].
    + exists f. by destruct (access_ok f).
    + by destruct (stat_err w value).
  - intros (f & -> & ->). by eexists.
Qed.

(** A path that passes validation is one click accepts. *)
Lemma valid_accepted (st : Settings) (w : World) (path msg : string) :
  validate_invoice_file st w path = inr (true, msg) → returns (click_Path true w path).
Proof.
  intros Hv. apply click_Path_exists. revert Hv. unfold validate_invoice_file.
  destruct (validate_file_exists w path) as [e|[|]]; simpl; [done| |done].
  destruct (validate_file_size st w path) as [e|[valid m]] eqn:Hs; simpl; [done|].
  destruct (validate_file_size_inv st w path _ Hs) as [f Hf].
  rewrite (validate_file_format_cases st w path f Hf).
  destruct valid; simpl; [|done]. intros Hv. exists f. split; [done|].
  unfold access_ok. by destruct (file_mime f).
Qed.

Lemma valid_resolved_accepted (st : Settings) (w : World) (input_file : string)
    (output : option string) (msg out : string) :
  validate_invoice_file st w input_file = inr (true, msg) →
  resolve_output w input_file output = inr out →
  accepted w input_file output.
Proof.
  intros Hv Ho. split; [by eapply valid_accepted|].
  destruct output as [o|]; [|done]. by exists out.
Qed.

(** Once click accepts the input path, the validator returns. *)
Lemma accepted_validates (st : Settings) (w : World) (input_file : string)
    (output : option string) :
  accepted w input_file output →
  ∃ ok reason, validate_invoice_file st w input_file = inr (ok, reason).
Proof.
  intros [(f & Hf & _)%click_Path_exists _].
  unfold validate_invoice_file.
  rewrite (validate_file_exists_file w input_file f Hf),
    (validate_file_size_cases st w input_file f Hf),
    (validate_file_format_cases st w input_file f Hf). simpl.
  destruct (_ >? _); simpl; [by eexists _, _|].
  destruct (file_mime f) as [e|mime]; simpl; [by eexists _, _|].
  destruct (supported_mime_types !! mime) as [fmt|]; simpl; [|by eexists _, _].
  destruct (bool_decide _); simpl; by eexists _, _.
Qed.

Lemma init_inv (st : Settings) (w : World) (self : InvoiceProcessor) (w1 : World) :
  __init__ st w = inr (self, w1) →
  has_ai_provider st = true
  ∧ get_preferred_model st = inr (model self, api_key self)
  ∧ w1 = _setup_environment self w.
Proof.
  unfold __init__. destruct (has_ai_provider st); [|done]. simpl.
  destruct (get_preferred_model st) as [e|[m k]]; [done|]. simpl.
  by intros [= <- <-].
Qed.

(** The run click stops at the input path. *)
Lemma run_main_rejected_input (st : Settings) (w : World) (input_file : string)
    (output : option string) (pretty verbose : bool) (e : exn) :
  click_Path true w input_file = inl e →
  run_main st w input_file output pretty verbose = rejected w e.
Proof.
  intros He. unfold_main. simpl. rewrite He. unfold rejected.
  by destruct (String.eqb (exn_class e) "BadParameter").
Qed.

(** The run click stops at the [--output] option. *)
Lemma run_main_rejected_output (st : Settings) (w : World) (input_file o : string)
    (pretty verbose : bool) (e : exn) :
  returns (click_Path true w input_file) →
  click_Path false w o = inl e →
  run_main st w input_file (Some o) pretty verbose = rejected w e.
Proof.
  intros [x Hx] He. unfold_main. simpl. rewrite Hx. simpl. rewrite He.
  unfold rejected. by destruct (String.eqb (exn_class e) "BadParameter").
Qed.

Ltac pass_click Hacc :=
  let x := fresh "x" in let Hx := fresh "Hx" in
  let y := fresh "y" in let Hy := fresh "Hy" in
  destruct Hacc as [[x Hx] Hacc]; unfold_main; simpl; rewrite Hx; simpl;
  try match goal with
      | |- context [match ?output with Some _ => _ | None => _ end] =>
          is_var output; destruct output as [?o|];
          [destruct Hacc as [y Hy]; simpl; rewrite Hy; simpl | clear Hacc; simpl]
      end.

(** The run that stops at the configuration check. *)
Lemma run_main_no_provider (st : Settings) (w : World) (input_file : string)
    (output : option string) (pretty verbose : bool) :
  accepted w input_file output →
  has_ai_provider st = false →
  run_main st w input_file output pretty verbose
  = ({| world := w; console := banner verbose ++ config_help; written := [] |},
     inl (SystemExit 1)).
Proof.
  intros Hacc Hp. pass_click Hacc; rewrite Hp; by destruct verbose.
Qed.

(** The run that stops at the validator. *)
Lemma run_main_invalid (st : Settings) (w : World) (input_file : string)
    (output : option string) (pretty verbose : bool) (reason : string) :
  accepted w input_file output →
  has_ai_provider st = true →
  validate_invoice_file st w input_file = inr (false, reason) →
  run_main st w input_file output pretty verbose
  = ({| world := w;
        console := banner verbose
                   ++ (if verbose
                       then [Echo Stdout ("📄 Validating file: " +:+ input_file)]
                       else [])
                   ++ [Echo Stderr ("❌ File validation failed: " +:+ reason)];
        written := [] |},
     inl (SystemExit 1)).
Proof.
  intros Hacc Hp Hv.
  pass_click Hacc; rewrite Hp; by destruct verbose; simpl; rewrite Hv.
Qed.

(** The run that fails to derive the output path. *)
Lemma run_main_no_output_path (st : Settings) (w : World) (input_file : string)
    (output : option string) (pretty verbose : bool) (msg : string) (e : exn) :
  accepted w input_file output →
  has_ai_provider st = true →
  validate_invoice_file st w input_file = inr (true, msg) →
  resolve_output w input_file output = inl e →
  run_main st w input_file output pretty verbose
  = ({| world := w;
        console := banner verbose
                   ++ (if verbose
                       then [Echo Stdout ("📄 Validating file: " +:+ input_file);
                             Echo Stdout ("✅ " +:+ msg)]
                       else []);
        written := [] |},
     inl (Raised e)).
Proof.
  intros Hacc Hp Hv Ho.
  destruct output as [o|]; simpl in Ho.
  { destruct Hacc as [_ [y Hy]]. congruence. }
  pass_click Hacc; rewrite Hp;
    by destruct verbose; simpl; rewrite Hv; simpl; rewrite Ho.
Qed.

(** The runs that reach the orchestrator: a failure of the backend or of
    the parser is reported as such; a success runs into the missing
    [model_dump]. *)
Lemma run_main_processing (st : Settings) (w : World) (input_file : string)
    (output : option string) (pretty verbose : bool) (msg out m k : string) :
  has_ai_provider st = true →
  validate_invoice_file st w input_file = inr (true, msg) →
  resolve_output w input_file output = inr out →
  get_preferred_model st = inr (m, k) →
  let self := {| model := m; api_key := k |} in
  let w1 := _setup_environment self w in
  let w2 := (process_invoice self w1 input_file).2 in
  run_main st w input_file output pretty verbose
  = match extract_and_parse self w1 input_file with
    | inl e =>
        ({| world := w2;
            console := progress verbose input_file msg out m
                       ++ [Echo Stderr ("❌ Processing failed: "
                                        +:+ ("Processing failed: " +:+ exn_str e))];
            written := [] |},
         inl (SystemExit 1))
    | inr d =>
        ({| world := w2;
            console := progress verbose input_file msg out m
                       ++ [Echo Stderr ("❌ Unexpected error: " +:+ exn_str no_model_dump)]
                       ++ (if verbose then [Traceback no_model_dump] else []);
            written := [] |},
         inl (SystemExit 1))
    end.
Proof.
  intros Hp Hv Ho Hg. simpl.
  pose proof (valid_resolved_accepted st w _ _ _ _ Hv Ho) as Hacc.
  pose proof (process_invoice_cases {| model := m; api_key := k |}
                (_setup_environment {| model := m; api_key := k |} w) input_file) as Hr.
  assert (match output with Some o => o = out | None => True end) as Hout.
  { destruct output as [o|]; [|done]. simpl in Ho. symmetry. by eapply click_Path_inv. }
  pass_click Hacc; rewrite !Hp;
    destruct verbose; simpl; rewrite Hv; simpl; simpl in Ho; subst; rewrite ?Ho; simpl;
    rewrite ?Hg; simpl;
    destruct (process_invoice _ _ _) as [r w2]; simpl in Hr; subst r; simpl;
    by destruct (extract_and_parse _ _ _) as [e|d].
Qed.

Lemma setup_environment_host (self : InvoiceProcessor) (w : World) :
  elapsed (_setup_environment self w) = elapsed w
  ∧ ticks (_setup_environment self w) = ticks w.
Proof.
  unfold _setup_environment, elapsed.
  by destruct (contains "gpt" (lower (model self))),
    (contains "gemini" (lower (model self))), (contains "claude" (lower (model self))).
Qed.

Lemma echoed_app (s : stream) (a b : list line) :
  echoed s (a ++ b) = (echoed s a ++ echoed s b)%list.
Proof. apply omap_app. Qed.

Lemma echoed_stderr_progress (verbose : bool) (input_file msg out m : string) :
  echoed Stderr (progress verbose input_file msg out m) = [].
Proof. by destruct verbose. Qed.

Lemma echoed_stderr_banner (verbose : bool) : echoed Stderr (banner verbose) = [].
Proof. by destruct verbose. Qed.

(** Click either lets the command run or ends the run itself. *)
Lemma accepted_or_rejected (st : Settings) (w : World) (input_file : string)
    (output : option string) (pretty verbose : bool) :
  accepted w input_file output
  ∨ ∃ e, run_main st w input_file output pretty verbose = rejected w e.
Proof.
  destruct (click_Path true w input_file) as [e|x] eqn:Hx.
  { right. exists e. by apply run_main_rejected_input. }
  destruct output as [o|].
  - destruct (click_Path false w o) as [e|y] eqn:Hy.
    + right. exists e. apply run_main_rejected_output; [by exists x | done].
    + left. split; [by exists x | by exists y].
  - left. split; [by exists x | done].
Qed.

Lemma rejected_world (w : World) (e : exn) :
  world (rejected w e).1 = w ∧ written (rejected w e).1 = []
  ∧ echoed Stderr (console (rejected w e).1) = []
  ∧ (exit_code (rejected w e).2 = 1 ∨ exit_code (rejected w e).2 = 2)
  ∧ (rejected w e).2 ≠ inr ().
Proof.
  unfold rejected.
  destruct (String.eqb (exn_class e) "BadParameter"); simpl;
    (repeat split; try done); [by right | by left].
Qed.

(** ** cli.py and the place of validation *)

(** C3, as the code has it. The validator is called by [main], after click
    has converted the parameters and after the configuration check, and
    before the orchestrator is constructed. A path that [os.stat] does not
    resolve never reaches it: click ends the run with a usage error and
    status 2. For every path click accepts that fails validation, [main]
    prints ["File validation failed: <reason>"] on standard error and
    leaves with [sys.exit(1)]: no clock reading is consumed, the
    environment is untouched, nothing is written, so the backend is not
    called. Without a configured provider the run ends with the
    configuration help instead, whatever the validator would say. A run
    of [main] in which the orchestrator read the clock is a run in which
    the configuration check and the validator had passed.
    [process_invoice] itself performs no validation: on a path the
    validator refuses it still calls the backend, and returns the
    successful envelope when the backend returns text. *)
Theorem validation_precedes_processing (st : Settings) (w : World) (input_file : string) :
  (∀ output pretty verbose reason,
     accepted w input_file output →
     has_ai_provider st = true →
     validate_invoice_file st w input_file = inr (false, reason) →
     let run := run_main st w input_file output pretty verbose in
     run.2 = inl (SystemExit 1)
     ∧ exit_code run.2 = 1
     ∧ world run.1 = w
     ∧ written run.1 = []
     ∧ last (console run.1)
       = Some (Echo Stderr ("❌ File validation failed: " +:+ reason)))
  ∧ (∀ output pretty verbose,
       files w input_file = None → stat_err w input_file ≠ ENULL →
       let run := run_main st w input_file output pretty verbose in
       run.2 = inl (SystemExit 2)
       ∧ exit_code run.2 = 2
       ∧ world run.1 = w
       ∧ console run.1 = [UsageError])
  ∧ (∀ output pretty verbose,
       accepted w input_file output →
       has_ai_provider st = false →
       let run := run_main st w input_file output pretty verbose in
       run.2 = inl (SystemExit 1)
       ∧ world run.1 = w
       ∧ echoed Stderr (console run.1)
         = [ "❌ Error: No AI provider configured.";
             "Please set API keys in .env file:";
             "  - OPENAI_API_KEY for OpenAI GPT models";
             "  - GEMINI_API_KEY for Google Gemini models";
             "  - ANTHROPIC_API_KEY for Anthropic Claude models" ])
  ∧ (∀ output pretty verbose,
       ticks (world (run_main st w input_file output pretty verbose).1) ≠ ticks w →
       has_ai_provider st = true
       ∧ ∃ reason, validate_invoice_file st w input_file = inr (true, reason))
  ∧ (∀ self reason out s,
       validate_invoice_file st w input_file = inr (false, reason) →
       call_zerox self w input_file = inr out →
       content_of out = PyStr s →
       (process_invoice self w input_file).1
       = success_envelope (parsed_text s) (elapsed w)).
Proof.
  refine (conj _ (conj _ (conj _ (conj _ _)))).
  - intros output pretty verbose reason Hacc Hp Hv. simpl.
    rewrite (run_main_invalid st w _ _ _ _ _ Hacc Hp Hv). simpl.
    repeat (split; [done|]). by rewrite !app_assoc, last_snoc.
  - intros output pretty verbose Hf Hne. simpl.
    assert (click_Path true w input_file
            = inl (Exn "BadParameter" ("Path " +:+ repr input_file +:+ " does not exist.")))
      as Hc.
    { unfold click_Path. rewrite Hf. by destruct (stat_err w input_file). }
    by rewrite (run_main_rejected_input st w _ _ _ _ _ Hc).
  - intros output pretty verbose Hacc Hp. simpl.
    rewrite (run_main_no_provider st w _ _ _ _ Hacc Hp). simpl.
    repeat (split; [done|]). by rewrite echoed_app, echoed_stderr_banner.
  - intros output pretty verbose.
    destruct (accepted_or_rejected st w input_file output pretty verbose)
      as [Hacc | [e ->]]; [|by destruct (rejected_world w e) as [-> _]].
    destruct (has_ai_provider st) eqn:Hp;
      [|by rewrite (run_main_no_provider st w _ _ _ _ Hacc Hp)].
    destruct (accepted_validates st w _ _ Hacc) as (ok & reason & Hv).
    destruct ok; [intros _; split; [done | by exists reason]|].
    by rewrite (run_main_invalid st w _ _ _ _ _ Hacc Hp Hv).
  - intros self reason out s _ Hz Hc.
    rewrite process_invoice_cases. unfold extract_and_parse. rewrite Hz. simpl.
    by rewrite Hc.
Qed.

Lemma validation_precedes_processing_witness :
  let run := run_main all_keys world_ok "big.pdf" None false true in
  run.2 = inl (SystemExit 1)
  ∧ exit_code run.2 = 1
  ∧ world run.1 = world_ok
  ∧ written run.1 = []
  ∧ last (console run.1)
    = Some (Echo Stderr "❌ File validation failed: File size (11.0MB) exceeds limit (10MB)").
Proof.
  apply (proj1 (validation_precedes_processing all_keys world_ok "big.pdf")
           None false true "File size (11.0MB) exceeds limit (10MB)");
    [split; [by eexists | done] | reflexivity | reflexivity].
Defined.

(** C3 as stated fails: on an oversized file the validator says no, yet
    [process_invoice] goes to the backend and returns a successful envelope
    without an error message. *)
Lemma process_invoice_skips_validation :
  validate_invoice_file all_keys world_ok "big.pdf"
  = inr (false, "File size (11.0MB) exceeds limit (10MB)")
  ∧ success (process_invoice gpt_processor world_ok "big.pdf").1 = true
  ∧ error_message (process_invoice gpt_processor world_ok "big.pdf").1 = None.
Proof. repeat split; reflexivity. Qed.

(** A missing input never reaches the body of [main]: status 2. *)
Example main_missing_input :
  let run := run_main all_keys world_ok "missing.pdf" None false false in
  exit_code run.2 = 2 ∧ console run.1 = [UsageError] ∧ ticks (world run.1) = 0%nat.
Proof. repeat split; reflexivity. Qed.

(** A backend failure: status 1, the failure on standard error, no file. *)
Example main_backend_failure :
  let run := run_main all_keys world_down "invoice.pdf" None false false in
  exit_code run.2 = 1
  ∧ console run.1
    = [Echo Stderr "❌ Processing failed: Processing failed: network unreachable"]
  ∧ written run.1 = [].
Proof. repeat split; reflexivity. Qed.

(** No credentials: [main] stops at the configuration check. *)
Example main_no_credentials :
  let run := run_main no_keys world_ok "invoice.pdf" None false false in
  exit_code run.2 = 1
  ∧ head (console run.1) = Some (Echo Stderr "❌ Error: No AI provider configured.")
  ∧ ticks (world run.1) = 0%nat.
Proof. repeat split; reflexivity. Qed.

(** ** cli.py: how the runs of [main] end *)

(** Without a configured provider, and once click has accepted the
    parameters, [main] stops at the configuration check: it prints the
    banner when verbose, then the five lines of the configuration help on
    standard error, and leaves with [sys.exit(1)]. The validator is not
    run, nothing is written and nothing of the host is consumed. *)
Theorem main_stops_without_provider (st : Settings) (w : World) (input_file : string)
    (output : option string) (pretty verbose : bool) :
  accepted w input_file output →
  has_ai_provider st = false →
  let run := run_main st w input_file output pretty verbose in
  run.2 = inl (SystemExit 1)
  ∧ world run.1 = w
  ∧ written run.1 = []
  ∧ console run.1 = (banner verbose ++ config_help)%list
  ∧ echoed Stderr (console run.1)
    = [ "❌ Error: No AI provider configured.";
        "Please set API keys in .env file:";
        "  - OPENAI_API_KEY for OpenAI GPT models";
        "  - GEMINI_API_KEY for Google Gemini models";
        "  - ANTHROPIC_API_KEY for Anthropic Claude models" ].
Proof.
  intros Hacc Hp. simpl. rewrite (run_main_no_provider st w _ _ _ _ Hacc Hp). simpl.
  repeat (split; [done|]). by rewrite echoed_app, echoed_stderr_banner.
Qed.

(** A text file, which the validator would refuse, and no credentials. *)
Lemma main_stops_without_provider_witness :
  let run := run_main no_keys world_ok "notes.txt" None false true in
  run.2 = inl (SystemExit 1) ∧ world run.1 = world_ok ∧ written run.1 = [].
Proof.
  pose proof (main_stops_without_provider no_keys world_ok "notes.txt" None false true
                (conj (ex_intro _ "notes.txt" eq_refl) I) eq_refl) as (H1 & H2 & H3 & _).
  cbv zeta. by repeat split.
Defined.


(** When validation passes, the output path is known, the processor is
    constructed and the backend and the parser return, [main] still
    fails: [model_dump] raises [AttributeError], [main] prints
    ["Unexpected error: 'InvoiceData' object has no attribute 'model_dump'"]
    on standard error, prints the traceback exactly when verbose, and
    leaves with status 1 without writing anything, although the backend
    has been called and two clock readings are spent. *)
Theorem main_success_hits_model_dump (st : Settings) (w : World) (input_file : string)
    (output : option string) (pretty verbose : bool) (msg out : string)
    (self : InvoiceProcessor) (w1 : World) (d : InvoiceData) :
  validate_invoice_file st w input_file = inr (true, msg) →
  resolve_output w input_file output = inr out →
  __init__ st w = inr (self, w1) →
  extract_and_parse self w1 input_file = inr d →
  let run := run_main st w input_file output pretty verbose in
  run.2 = inl (SystemExit 1)
  ∧ echoed Stderr (console run.1)
    = ["❌ Unexpected error: 'InvoiceData' object has no attribute 'model_dump'"]
  ∧ (Traceback no_model_dump ∈ console run.1 ↔ verbose = true)
  ∧ written run.1 = []
  ∧ ticks (world run.1) = S (S (ticks w)).
Proof.
  intros Hv Ho Hi Hx. simpl.
  destruct (init_inv st w self w1 Hi) as (Hp & Hg & ->).
  destruct self as [m k]. simpl in Hg.
  destruct (setup_environment_host {| model := m; api_key := k |} w) as (_ & Ht).
  rewrite (run_main_processing st w _ _ _ _ _ _ _ _ Hp Hv Ho Hg).
  rewrite process_invoice_world, Hx. simpl. rewrite Ht.
  split; [done|]. split; [|split; [|done]].
  - rewrite !echoed_app, echoed_stderr_progress. by destruct verbose.
  - destruct verbose; simpl.
    + split; [done|]. intros _. set_solver.
    + split; [|done]. by intros [=]%list_elem_of_singleton.
Qed.

Lemma main_success_hits_model_dump_witness :
  let run := run_main all_keys world_ok "invoice.pdf" (Some "out/result.json") true false in
  run.2 = inl (SystemExit 1)
  ∧ echoed Stderr (console run.1)
    = ["❌ Unexpected error: 'InvoiceData' object has no attribute 'model_dump'"]
  ∧ written run.1 = []
  ∧ ticks (world run.1) = 2%nat.
Proof.
  pose proof (main_success_hits_model_dump all_keys world_ok "invoice.pdf"
                (Some "out/result.json") true false "Valid pdf file" "out/result.json"
                gpt_processor (_setup_environment gpt_processor world_ok)
                (parsed_text "Invoice INV-1, total 10.00")
                eq_refl eq_refl eq_refl eq_refl) as (H1 & H2 & _ & H3 & H4).
  cbv zeta. by repeat split.
Defined.

(** A failure of the backend or of the parser. [main] prints the error
    message of the envelope behind its own prefix, so that the line on
    standard error reads ["Processing failed: Processing failed: <detail>"],
    leaves with status 1 and writes no file. *)
Theorem main_processing_failure (st : Settings) (w : World) (input_file : string)
    (output : option string) (pretty verbose : bool) (msg out : string)
    (self : InvoiceProcessor) (w1 : World) (e : exn) :
  validate_invoice_file st w input_file = inr (true, msg) →
  resolve_output w input_file output = inr out →
  __init__ st w = inr (self, w1) →
  extract_and_parse self w1 input_file = inl e →
  let run := run_main st w input_file output pretty verbose in
  run.2 = inl (SystemExit 1)
  ∧ echoed Stderr (console run.1)
    = ["❌ Processing failed: Processing failed: " +:+ exn_str e]
  ∧ written run.1 = [].
Proof.
  intros Hv Ho Hi Hx. simpl.
  destruct (init_inv st w self w1 Hi) as (Hp & Hg & ->).
  destruct self as [m k]. simpl in Hg.
  rewrite (run_main_processing st w _ _ _ _ _ _ _ _ Hp Hv Ho Hg), Hx. simpl.
  split; [done|]. split; [|done].
  by rewrite echoed_app, echoed_stderr_progress.
Qed.

Lemma main_processing_failure_witness :
  let run := run_main all_keys world_down "invoice.pdf" None false false in
  run.2 = inl (SystemExit 1)
  ∧ echoed Stderr (console run.1)
    = ["❌ Processing failed: Processing failed: network unreachable"]
  ∧ written run.1 = [].
Proof.
  apply (main_processing_failure all_keys world_down "invoice.pdf" None false false
           "Valid pdf file" "invoice.json" gpt_processor
           (_setup_environment gpt_processor world_down)
           (Exn "ConnectionError" "network unreachable"));
    reflexivity.
Defined.

(** The flag [--verbose] changes what goes to standard output, and adds the
    traceback, but nothing else: the way [main] ends, the files written,
    the final host and the lines echoed to standard error are the same with
    and without it. *)
Theorem main_verbose_effect (st : Settings) (w : World) (input_file : string)
    (output : option string) (pretty : bool) :
  let quiet := run_main st w input_file output pretty false in
  let loud := run_main st w input_file output pretty true in
  quiet.2 = loud.2
  ∧ written quiet.1 = written loud.1
  ∧ world quiet.1 = world loud.1
  ∧ echoed Stderr (console quiet.1) = echoed Stderr (console loud.1).
Proof.
  simpl.
  destruct (click_Path true w input_file) as [e|x] eqn:Hx;
    [by rewrite !(run_main_rejected_input st w _ _ _ _ _ Hx)|].
  assert (returns (click_Path true w input_file)) as Hin by by exists x.
  assert (accepted w input_file output
          ∨ ∃ o e, output = Some o ∧ click_Path false w o = inl e) as [Hacc|Hrej].
  { destruct output as [o|]; [|by left].
    destruct (click_Path false w o) as [e|y] eqn:Hy; [right; by exists o, e|].
    left. split; [done | by exists y]. }
  2: { destruct Hrej as (o & e & -> & Hy).
       by rewrite !(run_main_rejected_output st w _ _ _ _ _ Hin Hy). }
  destruct (has_ai_provider st) eqn:Hp;
    [|by rewrite !(run_main_no_provider st w _ _ _ _ Hacc Hp)].
  destruct (accepted_validates st w _ _ Hacc) as (ok & msg & Hv).
  destruct ok; [|by rewrite !(run_main_invalid st w _ _ _ _ _ Hacc Hp Hv)].
  destruct (resolve_output w input_file output) as [e|out] eqn:Ho;
    [by rewrite !(run_main_no_output_path st w _ _ _ _ _ _ Hacc Hp Hv Ho)|].
  destruct (has_ai_provider_preferred st Hp) as [[m k] Hg].
  rewrite !(run_main_processing st w _ _ _ _ _ _ _ _ Hp Hv Ho Hg).
  by destruct (extract_and_parse _ _ _) as [e|d].
Qed.
